(** * bun-git-proxy: the request handler of [index.ts]

    A shallow embedding of [handleProxyRequest] and of the helpers it uses
    ([corsHeaders], [json], the two header lists), with the platform
    objects it touches ([Headers], regular-expression literals,
    [JSON.stringify], [fetch]) modelled as far as the handler uses them.

    Strings are [string]s over 8-bit characters: URL components are ASCII
    after URL parsing (everything else is percent-encoded) and header
    values are byte strings.  The single [await fetch(...)] is a node of a
    small interaction tree, so that "no upstream call" and "the request
    handed to fetch" are statements about the shape of that tree.  A
    call that builds a [Response] can end with the RangeError of an
    unacceptable status; the callback given to [Bun.serve] catches it,
    and what the client is answered is what that callback returns.
    [console.log] / [console.error] calls are left out. *)

From Stdlib Require Import String Ascii List Bool Arith Lia.
Import ListNotations.
Open Scope list_scope.
Open Scope string_scope.

(* ===================================================================== *)
(** ** Characters and strings *)

Module Str.

Definition code (c : ascii) : nat := nat_of_ascii c.

Definition is_upper (c : ascii) : bool :=
  ((65 <=? code c) && (code c <=? 90))%nat.

(** Byte-lowercasing: only [A-Z] change. *)
Definition lower_char (c : ascii) : ascii :=
  if is_upper c then ascii_of_nat (code c + 32) else c.

Fixpoint lower (s : string) : string :=
  match s with
  | EmptyString => EmptyString
  | String c s' => String (lower_char c) (lower s')
  end.

Definition is_slash (c : ascii) : bool := Ascii.eqb c "/"%char.
Definition not_slash (c : ascii) : bool := negb (is_slash c).

(** The line terminators of ECMAScript that fit in one byte: LF and CR
    (U+2028 and U+2029 are not 8-bit characters). *)
Definition is_line_terminator (c : ascii) : bool :=
  Ascii.eqb c "010"%char || Ascii.eqb c "013"%char.

(** The class of [.] in a regular expression without the [s] flag. *)
Definition dot (c : ascii) : bool := negb (is_line_terminator c).

Fixpoint all (p : ascii -> bool) (s : string) : bool :=
  match s with
  | EmptyString => true
  | String c s' => p c && all p s'
  end.

(** Longest prefix of characters in [p], and what follows it. *)
Fixpoint take_run (p : ascii -> bool) (s : string) : string :=
  match s with
  | EmptyString => EmptyString
  | String c s' => if p c then String c (take_run p s') else EmptyString
  end.

Fixpoint drop_run (p : ascii -> bool) (s : string) : string :=
  match s with
  | EmptyString => EmptyString
  | String c s' => if p c then drop_run p s' else s
  end.

Fixpoint take (n : nat) (s : string) : string :=
  match n, s with
  | S n', String c s' => String c (take n' s')
  | _, _ => EmptyString
  end.

(** [consumed s rest]: the prefix of [s] that was read when [rest] is
    what remains of it. *)
Definition consumed (s rest : string) : string :=
  take (String.length s - String.length rest) s.

(** [Array.prototype.join]. *)
Fixpoint join (sep : string) (l : list string) : string :=
  match l with
  | [] => EmptyString
  | [x] => x
  | x :: l' => x ++ sep ++ join sep l'
  end.

(** [s.replace(/^\//, '')]: drop one leading slash, if there is one. *)
Definition strip_leading_slash (s : string) : string :=
  match s with
  | String c s' => if is_slash c then s' else s
  | EmptyString => EmptyString
  end.

(** [s.replace(':', '')] with a string pattern: the first occurrence
    only. *)
Fixpoint remove_first_colon (s : string) : string :=
  match s with
  | EmptyString => EmptyString
  | String c s' =>
      if Ascii.eqb c ":"%char then s' else String c (remove_first_colon s')
  end.

(** [a || b] on strings: the empty string is falsy. *)
Definition or_else (a b : string) : string :=
  match a with EmptyString => b | _ => a end.

End Str.

(* ===================================================================== *)
(** ** Regular expressions

    A backtracking matcher for the fragment that the literals of
    [index.ts] are written in: character classes, greedy [*], [+] and [?],
    sequencing and numbered capture groups.  [exec] is written in
    continuation-passing style so that a greedy operator gives characters
    back when what follows fails, as the ECMAScript matcher does. *)

Module Regex.

Inductive regex : Type :=
| Class (p : ascii -> bool)            (* one character of a class *)
| Cat (r1 r2 : regex)                  (* r1 r2 *)
| Opt (r : regex)                      (* r?  (greedy) *)
| Star (p : ascii -> bool)             (* c*  (greedy) *)
| Plus (p : ascii -> bool)             (* c+  (greedy) *)
| Group (i : nat) (r : regex).         (* ( r ), the i-th capture *)

(** The match array: index 0 is the whole match, index [i] the [i]-th
    group; [None] is [undefined]. *)
Definition captures := list (option string).

Fixpoint upd (i : nat) (v : option string) (c : captures) : captures :=
  match i, c with
  | 0, _ :: c' => v :: c'
  | S i', x :: c' => x :: upd i' v c'
  | _, [] => []
  end.

Section Exec.
Context {A : Type}.

Fixpoint star (p : ascii -> bool) (s : string)
         (k : string -> option A) : option A :=
  match s with
  | String c s' =>
      if p c then
        match star p s' k with
        | Some x => Some x
        | None => k s
        end
      else k s
  | EmptyString => k s
  end.

Fixpoint exec (r : regex) (s : string) (caps : captures)
         (k : string -> captures -> option A) : option A :=
  match r with
  | Class p =>
      match s with
      | String c s' => if p c then k s' caps else None
      | EmptyString => None
      end
  | Cat r1 r2 => exec r1 s caps (fun s1 c1 => exec r2 s1 c1 k)
  | Opt r1 =>
      match exec r1 s caps k with
      | Some x => Some x
      | None => k s caps
      end
  | Star p => star p s (fun s' => k s' caps)
  | Plus p =>
      match s with
      | String c s' =>
          if p c then star p s' (fun s'' => k s'' caps) else None
      | EmptyString => None
      end
  | Group i r1 =>
      exec r1 s caps
           (fun s' c' => k s' (upd i (Some (Str.consumed s s')) c'))
  end.
End Exec.

(** A match attempt at the start of [s], with [groups] capture groups. *)
Definition match_here (groups : nat) (r : regex) (s : string)
  : option captures :=
  exec (Group 0 r) s (repeat None (S groups)) (fun _ c => Some c).

(** [String.prototype.match] with a regular expression without the [g]
    flag: the leftmost match, [None] for [null]. *)
Fixpoint search (groups : nat) (r : regex) (s : string)
  : option captures :=
  match match_here groups r s with
  | Some c => Some c
  | None =>
      match s with
      | String _ s' => search groups r s'
      | EmptyString => None
      end
  end.

(** [m[i]] of a match array; [None] is [undefined]. *)
Definition group (i : nat) (m : captures) : option string :=
  nth i m None.

End Regex.

(* ===================================================================== *)
(** ** The [Headers] object

    A header list in the sense of the Fetch standard: pairs of a name and
    a value, several entries of one name allowed (a request can repeat a
    header).  Names are kept byte-lowercased, which is what [get], [has]
    and iteration show; every operation lowercases the name it is given,
    so names compare case-insensitively. *)

Module Headers.

Definition t := list (string * string).

Definition empty : t := [].

Definition named (n : string) (e : string * string) : bool :=
  String.eqb (fst e) n.

(** [headers.append(name, value)]. *)
Definition append (name value : string) (h : t) : t :=
  (h ++ [(Str.lower name, value)])%list.

(** [headers.get(name)]: the values of all entries of that name joined
    by a comma and a space, [None] ([null]) when there is none. *)
Definition get (name : string) (h : t) : option string :=
  match filter (named (Str.lower name)) h with
  | [] => None
  | es => Some (Str.join ", " (map snd es))
  end.

Definition has (name : string) (h : t) : bool :=
  existsb (named (Str.lower name)) h.

(** [set] on a lowercased name: the first entry of that name takes the
    value, the others go; without one, the pair is added at the end. *)
Fixpoint set_lower (n value : string) (h : t) : t :=
  match h with
  | [] => [(n, value)]
  | e :: h' =>
      if named n e
      then (n, value) :: filter (fun e' => negb (named n e')) h'
      else e :: set_lower n value h'
  end.

(** [headers.set(name, value)]. *)
Definition set (name value : string) (h : t) : t :=
  set_lower (Str.lower name) value h.

(** [new Headers(record)]: the record's own properties, in order. *)
Definition of_record (r : list (string * string)) : t :=
  fold_left (fun h kv => append (fst kv) (snd kv) h) r empty.

End Headers.

(* ===================================================================== *)
(** ** [JSON.stringify] on the objects the handler serialises

    Every object handed to [json] is a flat object literal whose property
    values are strings. *)

Module JSON.

Definition quote : string := String "034"%char EmptyString.
Definition backslash : string := String "092"%char EmptyString.

Definition hex_digit (n : nat) : ascii :=
  if (n <? 10)%nat then ascii_of_nat (48 + n) else ascii_of_nat (87 + n).

(** QuoteJSONString, one character at a time. *)
Definition escape_char (c : ascii) : string :=
  let n := Str.code c in
  if (n =? 34)%nat then backslash ++ quote
  else if (n =? 92)%nat then backslash ++ backslash
  else if (n =? 8)%nat then backslash ++ "b"
  else if (n =? 12)%nat then backslash ++ "f"
  else if (n =? 10)%nat then backslash ++ "n"
  else if (n =? 13)%nat then backslash ++ "r"
  else if (n =? 9)%nat then backslash ++ "t"
  else if (n <? 32)%nat then
    backslash ++ "u00"
      ++ String (hex_digit (n / 16)) (String (hex_digit (n mod 16)) "")
  else String c "".

Fixpoint escape (s : string) : string :=
  match s with
  | EmptyString => EmptyString
  | String c s' => escape_char c ++ escape s'
  end.

Definition quoted (s : string) : string := quote ++ escape s ++ quote.

Definition member (kv : string * string) : string :=
  quoted (fst kv) ++ ":" ++ quoted (snd kv).

(** [JSON.stringify(obj)] without indentation. *)
Definition stringify (obj : list (string * string)) : string :=
  "{" ++ Str.join "," (map member obj) ++ "}".

End JSON.

(* ===================================================================== *)
(** ** Requests, responses and the upstream call *)

(** What [new URL(request.url)] gives, as far as the handler reads it. *)
Record URL := {
  protocol : string;    (* with its trailing colon *)
  host : string;
  pathname : string;
  search : string;      (* empty, or starting with a question mark *)
}.

(** A body: [null], a string, or a stream of bytes passed on as it is. *)
Inductive Body :=
| BodyNull
| BodyText (s : string)
| BodyStream (bytes : string).

Record Request := {
  req_method : string;
  req_url : URL;
  req_headers : Headers.t;
  req_body : Body;
}.

Record Response := {
  status : nat;
  statusText : string;
  headers : Headers.t;
  body : Body;
}.

(** How a call that gives a [Response] ends: with the response, or with
    the RangeError that [new Response] throws for a status it does not
    take. *)
Inductive Outcome :=
| Returned (r : Response)
| RangeError (status : nat).

(** [new Response(body, { status, statusText, headers })]: the status
    has to lie in the range 200 to 599. *)
Definition new_Response (b : Body) (s : nat) (text : string)
           (h : Headers.t) : Outcome :=
  if ((200 <=? s) && (s <=? 599))%nat
  then Returned {| status := s; statusText := text;
                   headers := h; body := b |}
  else RangeError s.

(** The [RequestInit] handed to [fetch]. *)
Record RequestInit := {
  init_method : string;
  init_headers : Headers.t;
  init_redirect : string;
  init_body : option Body;      (* [None]: the property is not set *)
}.

(** What [fetch] resolves to: the final response after redirects, with
    [redirected] and the final [url]. *)
Record Upstream := {
  up_status : nat;
  up_statusText : string;
  up_headers : Headers.t;
  up_body : Body;
  up_redirected : bool;
  up_url : string;
}.

(** A thrown value: an [Error] with its message, or anything else. *)
Inductive Thrown :=
| ErrorObject (message : string)
| OtherValue.

Inductive FetchResult :=
| Resolved (u : Upstream)
| Rejected (err : Thrown).

(** The handler as an interaction tree with one kind of event: it either
    answers, or calls [fetch] and goes on with what [fetch] gives. *)
Inductive Prog (A : Type) : Type :=
| Ret (a : A)
| Fetch (url : string) (init : RequestInit) (k : FetchResult -> Prog A).
Arguments Ret {A} a.
Arguments Fetch {A} url init k.

(** Running a handler against an upstream: the answer and the calls made,
    in order. *)
Fixpoint run {A} (upstream : string -> RequestInit -> FetchResult)
         (p : Prog A) : A * list (string * RequestInit) :=
  match p with
  | Ret a => (a, [])
  | Fetch url init k =>
      let (a, calls) := run upstream (k (upstream url init)) in
      (a, (url, init) :: calls)
  end.

(** Going on after a handler has finished. *)
Fixpoint bind {A B} (p : Prog A) (f : A -> Prog B) : Prog B :=
  match p with
  | Ret a => f a
  | Fetch url init k => Fetch url init (fun result => bind (k result) f)
  end.

(* ===================================================================== *)
(** ** [index.ts] *)

Definition ALLOW_HEADERS : list string :=
  [ "accept-encoding";
    "accept-language";
    "accept";
    "access-control-allow-origin";
    "authorization";
    "cache-control";
    "connection";
    "content-length";
    "content-type";
    "dnt";
    "pragma";
    "range";
    "referer";
    "user-agent";
    "x-authorization";
    "x-http-method-override";
    "x-requested-with" ].

Definition EXPOSE_HEADERS : list string :=
  [ "accept-ranges";
    "age";
    "cache-control";
    "content-length";
    "content-language";
    "content-type";
    "date";
    "etag";
    "expires";
    "last-modified";
    "pragma";
    "server";
    "transfer-encoding";
    "vary";
    "x-github-request-id";
    "x-redirected-url" ].

Definition corsHeaders : list (string * string) :=
  [ ("Access-Control-Allow-Origin", "*");
    ("Access-Control-Allow-Methods", "POST, GET, OPTIONS");
    ("Access-Control-Allow-Headers", Str.join ", " ALLOW_HEADERS);
    ("Access-Control-Expose-Headers", Str.join ", " EXPOSE_HEADERS);
    ("Access-Control-Max-Age", "86400") ].

(** The [ResponseInit] argument of [json]; [None] where a property is
    missing. *)
Record ResponseInit := {
  ri_status : option nat;
  ri_headers : list (string * string);
}.

(** Object spread of [extra] into [base]: an own key keeps its place and
    takes the later value, a new key goes to the end. *)
Fixpoint assign (k v : string) (r : list (string * string))
  : list (string * string) :=
  match r with
  | [] => [(k, v)]
  | (k', v') :: r' =>
      if String.eqb k' k then (k, v) :: r' else (k', v') :: assign k v r'
  end.

Definition spread (base extra : list (string * string))
  : list (string * string) :=
  fold_left (fun r kv => assign (fst kv) (snd kv) r) extra base.

Definition json (data : list (string * string)) (init : option ResponseInit)
  : Outcome :=
  new_Response
    (BodyText (JSON.stringify data))
    (match init with
     | Some i => match ri_status i with Some s => s | None => 200 end
     | None => 200
     end)
    ""
    (Headers.of_record
       (spread [("content-type", "application/json; charset=utf-8")]
               (match init with Some i => ri_headers i | None => [] end))).

Definition status_only (s : nat) : option ResponseInit :=
  Some {| ri_status := Some s; ri_headers := [] |}.

(** The pattern of line 78: group 1 is one or more characters other than
    a slash, then an optional slash, then group 2 is any run of characters
    other than line terminators. *)
Definition path_re : Regex.regex :=
  Regex.Cat (Regex.Group 1 (Regex.Plus Str.not_slash))
    (Regex.Cat (Regex.Opt (Regex.Class Str.is_slash))
               (Regex.Group 2 (Regex.Star Str.dot))).

(** A pattern character under the [i] flag. *)
Definition ci (c x : ascii) : bool :=
  Ascii.eqb (Str.lower_char x) (Str.lower_char c).

(** The pattern of line 104, "git/" at the start of the input under the
    [i] flag: the anchor makes [test] one attempt at index 0, and a slash
    has no other case. *)
Definition git_ua_re : Regex.regex :=
  Regex.Cat (Regex.Class (ci "g"))
    (Regex.Cat (Regex.Class (ci "i"))
       (Regex.Cat (Regex.Class (ci "t")) (Regex.Class Str.is_slash))).

Definition test_git_ua (ua : string) : bool :=
  match Regex.match_here 0 git_ua_re ua with
  | Some _ => true
  | None => false
  end.

Definition PROXY_UA : string := "git/@isomorphic-git/cors-proxy (bun)".

(** [!v] on a value that is a string or [null]. *)
Definition falsy (v : option string) : bool :=
  match v with
  | None => true
  | Some EmptyString => true
  | Some _ => false
  end.

(** A match group inside a template literal. *)
Definition interpolate (v : option string) : string :=
  match v with Some s => s | None => "undefined" end.

(** The argument of [test], which turns [null] into a string. *)
Definition test_argument (v : option string) : string :=
  match v with Some s => s | None => "null" end.

(** One turn of a copying loop: [const v = from.get(h); if (v != null)
    into.set(h, v)]. *)
Definition copy_header (from : Headers.t) (h : string) (into : Headers.t)
  : Headers.t :=
  match Headers.get h from with
  | Some v => Headers.set h v into
  | None => into
  end.

(** The loop over [ALLOW_HEADERS] (lines 91 to 94). *)
Definition copy_allowed (from : Headers.t) (fwd : Headers.t) : Headers.t :=
  fold_left (fun fwd h => copy_header from h fwd) ALLOW_HEADERS fwd.

(** The loop over [EXPOSE_HEADERS] (lines 141 to 145), with its
    [continue] on content-length. *)
Definition copy_exposed (from : Headers.t) (out : Headers.t) : Headers.t :=
  fold_left
    (fun out h =>
       if String.eqb h "content-length" then out else copy_header from h out)
    EXPOSE_HEADERS out.

(** The upstream headers before the user-agent is looked at (lines 90 to
    100). *)
Definition context_headers (request : Request) : Headers.t :=
  let url := req_url request in
  let fwdHeaders := copy_allowed (req_headers request) Headers.empty in
  let fwdHeaders :=
    Headers.set "X-Forwarded-Proto" (Str.remove_first_colon (protocol url))
                fwdHeaders in
  let fwdHeaders :=
    Headers.set "X-Forwarded-For"
                (match Headers.get "x-forwarded-for" (req_headers request) with
                 | Some v => v
                 | None => "0.0.0.0"
                 end)
                fwdHeaders in
  Headers.set "X-Forwarded-Host" (host url) fwdHeaders.

(** The headers of the upstream request (lines 90 to 106). *)
Definition forward_headers (request : Request) : Headers.t :=
  let fwdHeaders := context_headers request in
  let ua := Headers.get "user-agent" fwdHeaders in
  if falsy ua || negb (test_git_ua (test_argument ua))
  then Headers.set "User-Agent" PROXY_UA fwdHeaders
  else fwdHeaders.

(** The [init] of the upstream call (lines 108 to 119). *)
Definition fetch_init (request : Request) : RequestInit :=
  {| init_method := req_method request;
     init_headers := forward_headers request;
     init_redirect := "follow";
     init_body :=
       if negb (String.eqb (req_method request) "GET")
          && negb (String.eqb (req_method request) "HEAD")
       then Some (req_body request)
       else None |}.

(** The headers of the client-facing response (lines 139 to 149). *)
Definition response_headers (upstream : Upstream) : Headers.t :=
  let outHeaders := Headers.of_record corsHeaders in
  let outHeaders := copy_exposed (up_headers upstream) outHeaders in
  if up_redirected upstream
  then Headers.set "x-redirected-url" (up_url upstream) outHeaders
  else outHeaders.

Definition error_message (err : Thrown) : string :=
  match err with
  | ErrorObject m => m
  | OtherValue => "Unknown error"
  end.

(** What follows [await fetch(targetURL, init)] (lines 121 to 156): the
    [catch] branch, or the relayed response, which is built outside the
    [try]. *)
Definition relay (targetURL : string) (result : FetchResult)
  : Prog Outcome :=
  match result with
  | Rejected err =>
      Ret (json [("error", "Proxy error");
                 ("message", error_message err);
                 ("url", targetURL)]
                (status_only 500))
  | Resolved upstream =>
      Ret (new_Response (up_body upstream)
                        (up_status upstream)
                        (up_statusText upstream)
                        (response_headers upstream))
  end.

Definition handleProxyRequest (request : Request) : Prog Outcome :=
  let url := req_url request in
  let path := Str.strip_leading_slash (pathname url) in
  if String.eqb (req_method request) "OPTIONS" then
    Ret (new_Response BodyNull 200 "" (Headers.of_record corsHeaders))
  else if falsy (Some path) then
    Ret (json [("error", "Invalid proxy URL format")] (status_only 400))
  else
    match Regex.search 2 path_re path with
    | None => Ret (json [("error", "Invalid path format")] (status_only 400))
    | Some parts =>
        let domain := Regex.group 1 parts in
        let remainingPath :=
          match Regex.group 2 parts with
          | Some s => Str.or_else s ""
          | None => ""
          end in
        let targetURL :=
          "https://" ++ interpolate domain ++ "/" ++ remainingPath
                     ++ search url in
        Fetch targetURL (fetch_init request) (relay targetURL)
    end.

(** The [catch] of the [fetch] callback given to [Bun.serve] (lines 167
    to 176).  The one error the handler can end with is the RangeError
    of line 152; it is an [Error], and [describe] is the message the
    engine gives it for a status. *)
Definition wrapper_catch (describe : nat -> string) (o : Outcome)
  : Outcome :=
  match o with
  | Returned r => Returned r
  | RangeError s =>
      json [("error", "Proxy error"); ("message", describe s)]
           (status_only 500)
  end.

(** The [fetch] callback given to [Bun.serve] (lines 164 to 177): what
    the client is answered. *)
Definition serve (describe : nat -> string) (request : Request)
  : Prog Outcome :=
  bind (handleProxyRequest request)
       (fun o => Ret (wrapper_catch describe o)).

(* ===================================================================== *)
(** ** Notions the statements are written in *)

(** What group 2 holds: the run of [.] after the optional slash. *)
Definition after_domain (s : string) : string :=
  Str.take_run Str.dot
    (Str.strip_leading_slash (Str.drop_run Str.not_slash s)).

(** [path] of line 66. *)
Definition path_of (request : Request) : string :=
  Str.strip_leading_slash (pathname (req_url request)).

(** The first maximal run of characters other than a slash. *)
Definition first_run (path : string) : string :=
  Str.take_run Str.not_slash (Str.drop_run Str.is_slash path).

(** The upstream URL in terms of runs of the path. *)
Definition target (path query : string) : string :=
  "https://" ++ first_run path ++ "/"
             ++ after_domain (Str.drop_run Str.is_slash path) ++ query.

Definition options_response : Response :=
  {| status := 200; statusText := "";
     headers := Headers.of_record corsHeaders; body := BodyNull |}.

(** The answer [json] builds for a status in range. *)
Definition json_response (data : list (string * string)) (s : nat)
  : Response :=
  {| status := s; statusText := "";
     headers := [("content-type", "application/json; charset=utf-8")];
     body := BodyText (JSON.stringify data) |}.

Definition invalid_url_response : Response :=
  json_response [("error", "Invalid proxy URL format")] 400.

Definition invalid_path_response : Response :=
  json_response [("error", "Invalid path format")] 400.

(** The statuses a [Response] can be built with. *)
Definition status_in_range (s : nat) : Prop := 200 <= s <= 599.

(** What the client is answered once the upstream call has ended: the
    rest of the handler, under the [catch] of the callback. *)
Definition client_answer (describe : nat -> string) (url : string)
           (result : FetchResult) : Prog Outcome :=
  bind (relay url result) (fun o => Ret (wrapper_catch describe o)).

(** The relayed response of lines 152 to 156. *)
Definition relayed_response (upstream : Upstream) : Response :=
  {| status := up_status upstream;
     statusText := up_statusText upstream;
     headers := response_headers upstream;
     body := up_body upstream |}.

(** Both loops are instances of one: copy each listed header that the
    source has, except the skipped names. *)
Definition copy_loop (skip : string -> bool) (from : Headers.t)
           (l : list string) (into : Headers.t) : Headers.t :=
  fold_left (fun acc h => if skip h then acc else copy_header from h acc)
            l into.

(** Is [n], lowercased, a listed name that is not skipped? *)
Definition copied (skip : string -> bool) (l : list string) (n : string)
  : bool :=
  existsb (fun m => String.eqb m (Str.lower n) && negb (skip m)) l.

(** The names of the three forwarding-context headers of lines 98 to
    100, as [Headers] keeps them. *)
Definition FORWARDING_HEADERS : list string :=
  [ "x-forwarded-proto"; "x-forwarded-for"; "x-forwarded-host" ].

(** The names of the five CORS headers, as [Headers] keeps them. *)
Definition CORS_HEADER_NAMES : list string :=
  [ "access-control-allow-origin";
    "access-control-allow-methods";
    "access-control-allow-headers";
    "access-control-expose-headers";
    "access-control-max-age" ].

Fixpoint starts_with (prefix s : string) : bool :=
  match prefix, s with
  | EmptyString, _ => true
  | String a prefix', String x s' => Ascii.eqb x a && starts_with prefix' s'
  | String _ _, EmptyString => false
  end.

(** "Starts with git/", letters compared without case. *)
Definition starts_with_git (ua : string) : bool :=
  starts_with "git/" (Str.lower ua).

(** No line terminator occurs in [s].  The path of a parsed URL is such a
    string: the URL parser removes tabs and newlines from its input and
    percent-encodes control characters. *)
Definition no_line_terminator (s : string) : bool := Str.all Str.dot s.

(** The text of an error envelope with the one property [error]. *)
Definition error_text (msg : string) : string :=
  "{" ++ JSON.quote ++ "error" ++ JSON.quote ++ ":"
      ++ JSON.quote ++ msg ++ JSON.quote ++ "}".

(** A reader for the texts the handler sends: a JSON object whose
    members are strings, written without white space.  It is independent
    of [JSON.stringify] and is what a client does with the body. *)
Module JSONRead.

Definition is_char (c : ascii) (n : nat) : bool := (Str.code c =? n)%nat.

Definition hex_value (c : ascii) : option nat :=
  let n := Str.code c in
  if ((48 <=? n) && (n <=? 57))%nat then Some (n - 48)
  else if ((97 <=? n) && (n <=? 102))%nat then Some (n - 87)
  else if ((65 <=? n) && (n <=? 70))%nat then Some (n - 55)
  else None.

Definition push (c : ascii) (r : option (string * string))
  : option (string * string) :=
  match r with
  | Some (decoded, rest) => Some (String c decoded, rest)
  | None => None
  end.

(** The characters of a string literal after its opening quote, up to
    the closing quote: the decoded string and what follows. *)
Fixpoint read_chars (s : string) : option (string * string) :=
  match s with
  | EmptyString => None
  | String c s1 =>
      if is_char c 34 then Some (EmptyString, s1)
      else if is_char c 92 then
        match s1 with
        | EmptyString => None
        | String e s2 =>
            if is_char e 34 then push "034"%char (read_chars s2)
            else if is_char e 92 then push "092"%char (read_chars s2)
            else if is_char e 47 then push "/"%char (read_chars s2)
            else if is_char e 98 then push "008"%char (read_chars s2)
            else if is_char e 102 then push "012"%char (read_chars s2)
            else if is_char e 110 then push "010"%char (read_chars s2)
            else if is_char e 114 then push "013"%char (read_chars s2)
            else if is_char e 116 then push "009"%char (read_chars s2)
            else if is_char e 117 then
              match s2 with
              | String h1 (String h2 (String h3 (String h4 s3))) =>
                  match hex_value h1, hex_value h2,
                        hex_value h3, hex_value h4 with
                  | Some a, Some b, Some x, Some y =>
                      let n := ((a * 16 + b) * 16 + x) * 16 + y in
                      if (n <? 256)%nat
                      then push (ascii_of_nat n) (read_chars s3)
                      else None
                  | _, _, _, _ => None
                  end
              | _ => None
              end
            else None
        end
      else if (Str.code c <? 32)%nat then None
      else push c (read_chars s1)
  end.

Definition read_string (s : string) : option (string * string) :=
  match s with
  | String c s' => if is_char c 34 then read_chars s' else None
  | EmptyString => None
  end.

(** Members up to the closing brace; [fuel] bounds their number. *)
Fixpoint read_members (fuel : nat) (s : string)
  : option (list (string * string)) :=
  match fuel with
  | 0 => None
  | S fuel' =>
      match read_string s with
      | Some (k, String c1 s1) =>
          if is_char c1 58 then
            match read_string s1 with
            | Some (v, String c2 s2) =>
                if is_char c2 44 then
                  match read_members fuel' s2 with
                  | Some members => Some ((k, v) :: members)
                  | None => None
                  end
                else if is_char c2 125 then
                  match s2 with
                  | EmptyString => Some [(k, v)]
                  | String _ _ => None
                  end
                else None
            | _ => None
            end
          else None
      | _ => None
      end
  end.

(** The members of an object text, in order; [None] for any other
    text. *)
Definition parse_object (s : string) : option (list (string * string)) :=
  match s with
  | String c s' =>
      if is_char c 123 then
        match s' with
        | String d EmptyString =>
            if is_char d 125 then Some [] else None
        | _ => read_members (String.length s') s'
        end
      else None
  | EmptyString => None
  end.

End JSONRead.

(** A string that JSON writes as it is: no quote, no backslash and no
    control character. *)
Definition plain_char (c : ascii) : bool :=
  negb (Str.code c <? 32)%nat
  && negb (Str.code c =? 34)%nat
  && negb (Str.code c =? 92)%nat.

Definition plain (s : string) : bool := Str.all plain_char s.

(** The text of the envelope of a failed upstream call, for plain
    strings. *)
Definition failure_text (message url : string) : string :=
  "{" ++ JSON.quote ++ "error" ++ JSON.quote ++ ":"
      ++ JSON.quote ++ "Proxy error" ++ JSON.quote ++ ","
      ++ JSON.quote ++ "message" ++ JSON.quote ++ ":"
      ++ JSON.quote ++ message ++ JSON.quote ++ ","
      ++ JSON.quote ++ "url" ++ JSON.quote ++ ":"
      ++ JSON.quote ++ url ++ JSON.quote ++ "}".

(* ===================================================================== *)
(** ** Sample inputs *)

Module Samples.

Definition url_of (path query : string) : URL :=
  {| protocol := "http:"; host := "localhost:3000";
     pathname := path; search := query |}.

Definition get (path query : string) (hs : list (string * string))
  : Request :=
  {| req_method := "GET"; req_url := url_of path query;
     req_headers := Headers.of_record hs; req_body := BodyNull |}.

Definition ok (hs : list (string * string)) (redirected : bool)
           (final : string) : Upstream :=
  {| up_status := 200; up_statusText := "OK";
     up_headers := Headers.of_record hs; up_body := BodyStream "data";
     up_redirected := redirected; up_url := final |}.

Definition options (path : string) : Request :=
  {| req_method := "OPTIONS"; req_url := url_of path "";
     req_headers := Headers.empty; req_body := BodyNull |}.

(** A request with a cookie and a forwarded-for header. *)
Definition with_cookie : Request :=
  get "/example.com/foo" "?x=1"
      [("Cookie", "sid=1"); ("X-Forwarded-For", "1.2.3.4")].

(** An upstream answer with a cookie, a length and a CORS header of its
    own. *)
Definition with_set_cookie : Upstream :=
  ok [("Set-Cookie", "sid=2"); ("Content-Length", "4");
      ("Access-Control-Allow-Origin", "https://elsewhere.example");
      ("ETag", "abc")]
     false "https://example.com/foo?x=1".



(** An upstream answer with a status no [Response] can be built with. *)
Definition out_of_range : Upstream :=
  {| up_status := 999; up_statusText := "";
     up_headers := Headers.of_record [("Content-Type", "text/plain")];
     up_body := BodyStream "data";
     up_redirected := true; up_url := "https://example.com/foo?x=1" |}.

(** A stand-in for the engine's wording of the RangeError. *)
Definition describe (s : nat) : string := "status out of range".

End Samples.

Example sample_forward :
  exists init k,
    handleProxyRequest
      (Samples.get "/example.com/foo" "?x=1" [("Range", "bytes=0-10")])
    = Fetch "https://example.com/foo?x=1" init k
    /\ Headers.get "range" (init_headers init) = Some "bytes=0-10"
    /\ Headers.has "Host" (init_headers init) = false.
Proof. eexists; eexists; split; [reflexivity | split; reflexivity]. Qed.

(* ===================================================================== *)
(** ** Facts about strings and runs *)

Section StringFacts.

Variable p : ascii -> bool.

Lemma length_drop_run (s : string) :
  String.length (Str.drop_run p s) <= String.length s.
Proof.
  induction s as [|c s IH]; cbn; [lia|].
  destruct (p c); cbn; lia.
Qed.

Lemma consumed_drop_run (s : string) :
  Str.consumed s (Str.drop_run p s) = Str.take_run p s.
Proof.
  unfold Str.consumed.
  induction s as [|c s IH]; cbn [Str.drop_run Str.take_run]; [reflexivity|].
  destruct (p c).
  - pose proof (length_drop_run s) as Hle.
    cbn [String.length].
    replace (S (String.length s) - String.length (Str.drop_run p s))
      with (S (String.length s - String.length (Str.drop_run p s)))
      by lia.
    cbn [Str.take]. now rewrite IH.
  - now rewrite Nat.sub_diag.
Qed.

Lemma take_run_all (s : string) :
  Str.all p s = true -> Str.take_run p s = s.
Proof.
  induction s as [|c s IH]; cbn; [reflexivity|].
  destruct (p c); cbn; [intros H; now rewrite IH | discriminate].
Qed.

Lemma drop_run_all (s : string) :
  Str.all p s = true -> Str.drop_run p s = EmptyString.
Proof.
  induction s as [|c s IH]; cbn; [reflexivity|].
  destruct (p c); cbn; [exact IH | discriminate].
Qed.

Lemma drop_run_empty_all (s : string) :
  Str.drop_run p s = EmptyString -> Str.all p s = true.
Proof.
  induction s as [|c s IH]; cbn; [reflexivity|].
  destruct (p c); cbn; [exact IH | discriminate].
Qed.

(** A run stops at the first character outside the class. *)
Lemma take_run_stop (a : string) (c : ascii) (b : string) :
  Str.all p a = true -> p c = false ->
  Str.take_run p (a ++ String c b) = a.
Proof.
  intros Ha Hc. induction a as [|x a IH]; cbn in *.
  - now rewrite Hc.
  - destruct (p x); cbn in *; [now rewrite IH | discriminate].
Qed.

Lemma drop_run_stop (a : string) (c : ascii) (b : string) :
  Str.all p a = true -> p c = false ->
  Str.drop_run p (a ++ String c b) = String c b.
Proof.
  intros Ha Hc. induction a as [|x a IH]; cbn in *.
  - now rewrite Hc.
  - destruct (p x); cbn in *; [now apply IH | discriminate].
Qed.

(** What [drop_run] leaves starts outside the class. *)
Lemma drop_run_head (s : string) (c : ascii) (r : string) :
  Str.drop_run p s = String c r -> p c = false.
Proof.
  induction s as [|x s IH]; cbn; [discriminate|].
  destruct (p x) eqn:Hx; [exact IH|].
  intros H; injection H as -> _. exact Hx.
Qed.

End StringFacts.

Lemma not_slash_is_slash (c : ascii) :
  Str.not_slash c = false -> Str.is_slash c = true.
Proof. unfold Str.not_slash. now destruct (Str.is_slash c). Qed.

(* ===================================================================== *)
(** ** The matcher on the path pattern *)

Section Greedy.

Context {A : Type}.

(** A greedy star keeps its longest run when what follows accepts it. *)
Lemma star_greedy (p : ascii -> bool) (s : string)
      (k : string -> option A) (x : A) :
  k (Str.drop_run p s) = Some x -> Regex.star p s k = Some x.
Proof.
  induction s as [|c s IH]; cbn; [trivial|].
  destruct (p c); [|trivial].
  intros H. now rewrite (IH H).
Qed.

End Greedy.

Lemma match_here_path (c : ascii) (s : string) :
  Str.not_slash c = true ->
  exists whole,
    Regex.match_here 2 path_re (String c s)
    = Some [Some whole;
            Some (Str.take_run Str.not_slash (String c s));
            Some (after_domain (String c s))].
Proof.
  intros Hc.
  unfold Regex.match_here, path_re, after_domain.
  cbn [Regex.exec repeat]. rewrite Hc.
  set (s1 := Str.drop_run Str.not_slash s).
  assert (Hdrop : Str.drop_run Str.not_slash (String c s) = s1)
    by (cbn; now rewrite Hc).
  rewrite Hdrop.
  assert (Hg1 : Str.consumed (String c s) s1
                = Str.take_run Str.not_slash (String c s))
    by (rewrite <- Hdrop; apply consumed_drop_run).
  exists (Str.consumed (String c s)
            (Str.drop_run Str.dot (Str.strip_leading_slash s1))).
  apply star_greedy. fold s1. rewrite Hg1.
  destruct s1 as [|d s2] eqn:Hs1.
  - cbn. reflexivity.
  - assert (Hd : Str.is_slash d = true).
    { apply not_slash_is_slash.
      apply (drop_run_head Str.not_slash s d s2). exact Hs1. }
    cbn [Str.strip_leading_slash]. rewrite Hd.
    erewrite star_greedy; [reflexivity|].
    cbn [Regex.upd]. rewrite consumed_drop_run. reflexivity.
Qed.

Lemma match_here_slash (c : ascii) (s : string) :
  Str.not_slash c = false ->
  Regex.match_here 2 path_re (String c s) = None.
Proof.
  intros Hc. unfold Regex.match_here, path_re.
  cbn [Regex.exec]. now rewrite Hc.
Qed.

(** The leftmost match starts at the first character that is not a
    slash; there is none exactly when there is no such character. *)
Lemma search_path (s : string) :
  match Str.drop_run Str.is_slash s with
  | EmptyString => Regex.search 2 path_re s = None
  | String c r =>
      exists whole,
        Regex.search 2 path_re s
        = Some [Some whole;
                Some (Str.take_run Str.not_slash (String c r));
                Some (after_domain (String c r))]
  end.
Proof.
  induction s as [|c s IH]; [reflexivity|].
  cbn [Str.drop_run]. destruct (Str.is_slash c) eqn:Hc.
  - assert (Hn : Str.not_slash c = false)
      by (unfold Str.not_slash; now rewrite Hc).
    cbn [Regex.search]. rewrite (match_here_slash c s Hn). exact IH.
  - assert (Hn : Str.not_slash c = true)
      by (unfold Str.not_slash; now rewrite Hc).
    destruct (match_here_path c s Hn) as [whole Hm].
    exists whole. cbn [Regex.search]. now rewrite Hm.
Qed.

(* ===================================================================== *)
(** ** The shape of [handleProxyRequest] *)

Lemma or_else_empty (s : string) : Str.or_else s "" = s.
Proof. now destruct s. Qed.

Lemma handle_options (request : Request) :
  req_method request = "OPTIONS" ->
  handleProxyRequest request = Ret (Returned options_response).
Proof.
  intros H. unfold handleProxyRequest. rewrite H. reflexivity.
Qed.

Lemma handle_empty (request : Request) :
  req_method request <> "OPTIONS" ->
  path_of request = "" ->
  handleProxyRequest request = Ret (Returned invalid_url_response).
Proof.
  intros Hm Hp. apply String.eqb_neq in Hm.
  unfold handleProxyRequest. fold (path_of request).
  rewrite Hm, Hp. reflexivity.
Qed.

Lemma handle_slashes (request : Request) :
  req_method request <> "OPTIONS" ->
  path_of request <> "" ->
  Str.all Str.is_slash (path_of request) = true ->
  handleProxyRequest request = Ret (Returned invalid_path_response).
Proof.
  intros Hm Hp Hall. apply String.eqb_neq in Hm.
  unfold handleProxyRequest. fold (path_of request). rewrite Hm.
  pose proof (search_path (path_of request)) as Hs.
  rewrite (drop_run_all _ _ Hall) in Hs. rewrite Hs.
  destruct (path_of request); [congruence | reflexivity].
Qed.

Lemma handle_forward (request : Request) :
  req_method request <> "OPTIONS" ->
  Str.all Str.is_slash (path_of request) = false ->
  let url := target (path_of request) (search (req_url request)) in
  handleProxyRequest request = Fetch url (fetch_init request) (relay url).
Proof.
  intros Hm Hall. apply String.eqb_neq in Hm.
  unfold handleProxyRequest, target, first_run.
  fold (path_of request). rewrite Hm.
  pose proof (search_path (path_of request)) as Hs.
  destruct (Str.drop_run Str.is_slash (path_of request)) as [|c r] eqn:Hd.
  - apply drop_run_empty_all in Hd. congruence.
  - destruct Hs as [whole Hs]. rewrite Hs.
    destruct (path_of request) as [|x p]; [discriminate|].
    cbn [falsy Regex.group nth interpolate]. rewrite or_else_empty.
    reflexivity.
Qed.

(** Every upstream call of the handler is the one of line 123. *)
Lemma handle_fetch_inv (request : Request) (url : string)
      (init : RequestInit) (k : FetchResult -> Prog Outcome) :
  handleProxyRequest request = Fetch url init k ->
  req_method request <> "OPTIONS"
  /\ Str.all Str.is_slash (path_of request) = false
  /\ url = target (path_of request) (search (req_url request))
  /\ init = fetch_init request
  /\ k = relay url.
Proof.
  intros H.
  destruct (String.eqb (req_method request) "OPTIONS") eqn:Hm.
  - apply String.eqb_eq in Hm. rewrite (handle_options _ Hm) in H.
    discriminate.
  - apply String.eqb_neq in Hm.
    destruct (Str.all Str.is_slash (path_of request)) eqn:Hall.
    + destruct (string_dec (path_of request) "") as [Hp|Hp].
      * rewrite (handle_empty _ Hm Hp) in H. discriminate.
      * rewrite (handle_slashes _ Hm Hp Hall) in H. discriminate.
    + rewrite (handle_forward _ Hm Hall) in H.
      injection H as <- <- <-. repeat split; auto.
Qed.

Lemma run_relay (up : string -> RequestInit -> FetchResult)
      (url : string) (result : FetchResult) :
  snd (run up (relay url result)) = [].
Proof. now destruct result. Qed.

(** The handler always answers, whatever the upstream does, and calls it
    at most once. *)
Lemma handle_at_most_one_call (up : string -> RequestInit -> FetchResult)
      (request : Request) :
  length (snd (run up (handleProxyRequest request))) <= 1.
Proof.
  destruct (handleProxyRequest request) as [r|url init k] eqn:H;
    [cbn; lia|].
  destruct (handle_fetch_inv request url init k H) as (_ & _ & _ & _ & ->).
  cbn [run]. pose proof (run_relay up url (up url init)) as Hr.
  destruct (run up (relay url (up url init))) as [a calls].
  cbn in *. subst calls. cbn. lia.
Qed.

(* ===================================================================== *)
(** ** Facts about [Headers] *)

Module HeadersFacts.
Import Headers.

Lemma named_refl (n v : string) : named n (n, v) = true.
Proof. unfold named; cbn. apply String.eqb_refl. Qed.

Lemma filter_named_removed (n : string) (h : t) :
  filter (named n) (filter (fun e => negb (named n e)) h) = [].
Proof.
  induction h as [|e h IH]; cbn; [reflexivity|].
  destruct (named n e) eqn:He; cbn; [exact IH | now rewrite He].
Qed.

Lemma filter_named_kept (n m : string) (h : t) :
  n <> m ->
  filter (named n) (filter (fun e => negb (named m e)) h)
  = filter (named n) h.
Proof.
  intros Hnm. induction h as [|e h IH]; cbn; [reflexivity|].
  destruct (named m e) eqn:Hm; cbn.
  - unfold named in *. apply String.eqb_eq in Hm.
    destruct (String.eqb (fst e) n) eqn:Hn; [|exact IH].
    apply String.eqb_eq in Hn. congruence.
  - destruct (named n e); [now rewrite IH | exact IH].
Qed.

Lemma filter_set_same (n v : string) (h : t) :
  filter (named n) (set_lower n v h) = [(n, v)].
Proof.
  induction h as [|e h IH]; cbn [set_lower filter].
  - now rewrite named_refl.
  - destruct (named n e) eqn:He; cbn [filter].
    + now rewrite named_refl, filter_named_removed.
    + now rewrite He.
Qed.

Lemma filter_set_other (n m v : string) (h : t) :
  n <> m ->
  filter (named n) (set_lower m v h) = filter (named n) h.
Proof.
  intros Hnm. induction h as [|e h IH]; cbn [set_lower filter].
  - unfold named; cbn. destruct (String.eqb m n) eqn:E; [|reflexivity].
    apply String.eqb_eq in E. congruence.
  - destruct (named m e) eqn:Hm; cbn [filter].
    + assert (Hn : named n e = false).
      { unfold named in *. apply String.eqb_eq in Hm.
        apply String.eqb_neq. congruence. }
      rewrite Hn.
      replace (named n (m, v)) with false.
      * now apply filter_named_kept.
      * symmetry. unfold named; cbn. apply String.eqb_neq. congruence.
    + destruct (named n e); [now rewrite IH | exact IH].
Qed.

(** [set] then [get] of the same name, in any case of letters. *)
Lemma get_set_same (n m v : string) (h : t) :
  Str.lower n = Str.lower m -> get n (set m v h) = Some v.
Proof.
  intros E. unfold get, set. rewrite E, filter_set_same. reflexivity.
Qed.

(** [set] leaves the other names alone. *)
Lemma get_set_other (n m v : string) (h : t) :
  Str.lower n <> Str.lower m -> get n (set m v h) = get n h.
Proof.
  intros E. unfold get, set. now rewrite filter_set_other.
Qed.

Lemma has_get (n : string) (h : t) :
  has n h = match get n h with Some _ => true | None => false end.
Proof.
  unfold has, get. induction h as [|e h IH]; cbn; [reflexivity|].
  destruct (named (Str.lower n) e); cbn; [reflexivity|exact IH].
Qed.

Lemma has_false_get (n : string) (h : t) :
  get n h = None -> has n h = false.
Proof. intros H. now rewrite has_get, H. Qed.

(** Names that agree up to case read the same entries. *)
Lemma get_lower_eq (n m : string) (h : t) :
  Str.lower n = Str.lower m -> get n h = get m h.
Proof. intros E. unfold get. now rewrite E. Qed.

End HeadersFacts.

(* ===================================================================== *)
(** ** The two copying loops *)

Lemma copy_allowed_loop (from fwd : Headers.t) :
  copy_allowed from fwd = copy_loop (fun _ => false) from ALLOW_HEADERS fwd.
Proof. reflexivity. Qed.

Lemma copy_exposed_loop (from out : Headers.t) :
  copy_exposed from out
  = copy_loop (fun h => String.eqb h "content-length") from
              EXPOSE_HEADERS out.
Proof. reflexivity. Qed.

Section CopyLoop.
Import HeadersFacts.

Variable skip : string -> bool.
Variable from : Headers.t.

Lemma get_copy_step (m n : string) (into : Headers.t) :
  Str.lower m = m ->
  Headers.get n (if skip m then into else copy_header from m into)
  = if String.eqb m (Str.lower n) && negb (skip m)
    then match Headers.get n from with
         | Some v => Some v
         | None => Headers.get n into
         end
    else Headers.get n into.
Proof.
  intros Hm. destruct (skip m).
  - now rewrite andb_false_r.
  - rewrite andb_true_r. unfold copy_header.
    destruct (String.eqb m (Str.lower n)) eqn:E.
    + apply String.eqb_eq in E.
      assert (Hnm : Str.lower n = Str.lower m) by congruence.
      rewrite (get_lower_eq m n from) by congruence.
      destruct (Headers.get n from) as [v|]; [|reflexivity].
      now apply get_set_same.
    + apply String.eqb_neq in E.
      destruct (Headers.get m from) as [v|]; [|reflexivity].
      apply get_set_other. congruence.
Qed.

(** After a loop a name reads the source's value if it was copied, and
    what it read before otherwise. *)
Lemma get_copy_loop (l : list string) (n : string) (into : Headers.t) :
  Forall (fun m => Str.lower m = m) l ->
  Headers.get n (copy_loop skip from l into)
  = if copied skip l n
    then match Headers.get n from with
         | Some v => Some v
         | None => Headers.get n into
         end
    else Headers.get n into.
Proof.
  intros Hl. revert into.
  induction Hl as [|m l Hm Hl IH]; intros into; [reflexivity|].
  unfold copy_loop in *. cbn [fold_left copied existsb].
  rewrite IH. fold (copied skip l n).
  rewrite (get_copy_step m n into Hm).
  destruct (String.eqb m (Str.lower n) && negb (skip m));
    destruct (copied skip l n);
    destruct (Headers.get n from); reflexivity.
Qed.

Lemma copied_false (l : list string) (n : string) :
  ~ In (Str.lower n) l -> copied skip l n = false.
Proof.
  intros Hn. unfold copied.
  destruct (existsb _ l) eqn:E; [|reflexivity].
  apply existsb_exists in E. destruct E as [m [Hin Hm]].
  apply andb_prop in Hm. destruct Hm as [Hm _].
  apply String.eqb_eq in Hm. subst m. contradiction.
Qed.

End CopyLoop.

Lemma ALLOW_HEADERS_lower : Forall (fun m => Str.lower m = m) ALLOW_HEADERS.
Proof. repeat constructor. Qed.

Lemma EXPOSE_HEADERS_lower : Forall (fun m => Str.lower m = m) EXPOSE_HEADERS.
Proof. repeat constructor. Qed.

Lemma error_text_stringify :
  JSON.stringify [("error", "Invalid proxy URL format")]
  = error_text "Invalid proxy URL format"
  /\ JSON.stringify [("error", "Invalid path format")]
     = error_text "Invalid path format".
Proof. split; reflexivity. Qed.

(* ===================================================================== *)
(** ** Request translation and dispatch *)

(** C4.  A request with method OPTIONS, whatever its path, is answered
    with status 200, exactly the five CORS headers and a null body, and
    no upstream call is made: the handler is a bare [Ret], and running it
    against any upstream records no call. *)
Theorem C4_options_short_circuit :
  forall (request : Request) (up : string -> RequestInit -> FetchResult),
    req_method request = "OPTIONS" ->
    handleProxyRequest request
    = Ret (Returned
             {| status := 200;
                statusText := "";
                headers :=
                  [ ("access-control-allow-origin", "*");
                    ("access-control-allow-methods", "POST, GET, OPTIONS");
                    ("access-control-allow-headers",
                     Str.join ", " ALLOW_HEADERS);
                    ("access-control-expose-headers",
                     Str.join ", " EXPOSE_HEADERS);
                    ("access-control-max-age", "86400") ];
                body := BodyNull |})
    /\ snd (run up (handleProxyRequest request)) = [].
Proof.
  intros request up H. rewrite (handle_options request H). split; reflexivity.
Qed.

Lemma C4_witness :
  req_method (Samples.options "") = "OPTIONS"
  /\ snd (run (fun _ _ => Rejected OtherValue)
              (handleProxyRequest (Samples.options ""))) = [].
Proof.
  split; [reflexivity|].
  apply (C4_options_short_circuit (Samples.options "")
           (fun _ _ => Rejected OtherValue)).
  reflexivity.
Defined.

(** C8.  A request that is not OPTIONS and whose path is empty once the
    leading slash is gone is answered with status 400 and the body
    [{"error":"Invalid proxy URL format"}], without an upstream call. *)
Theorem C8_empty_path_rejected :
  forall (request : Request) (up : string -> RequestInit -> FetchResult),
    req_method request <> "OPTIONS" ->
    path_of request = "" ->
    exists r,
      handleProxyRequest request = Ret (Returned r)
      /\ status r = 400
      /\ body r = BodyText (error_text "Invalid proxy URL format")
      /\ snd (run up (handleProxyRequest request)) = [].
Proof.
  intros request up Hm Hp. exists invalid_url_response.
  rewrite (handle_empty request Hm Hp). repeat split.
Qed.

Lemma C8_witness :
  exists r,
    handleProxyRequest (Samples.get "/" "?x=1" []) = Ret (Returned r)
    /\ status r = 400
    /\ body r = BodyText (error_text "Invalid proxy URL format")
    /\ snd (run (fun _ _ => Rejected OtherValue)
                (handleProxyRequest (Samples.get "/" "?x=1" []))) = [].
Proof.
  apply (C8_empty_path_rejected (Samples.get "/" "?x=1" [])
           (fun _ _ => Rejected OtherValue)).
  - discriminate.
  - reflexivity.
Defined.

Lemma target_split (domain remainder query : string) :
  domain <> "" ->
  Str.all Str.not_slash domain = true ->
  no_line_terminator remainder = true ->
  target (domain ++ "/" ++ remainder) query
  = "https://" ++ domain ++ "/" ++ remainder ++ query
  /\ Str.all Str.is_slash (domain ++ "/" ++ remainder) = false.
Proof.
  intros Hne Hd Hr.
  destruct domain as [|c d]; [congruence|].
  cbn in Hd. apply andb_prop in Hd. destruct Hd as [Hc Hd].
  assert (Hs : Str.is_slash c = false)
    by (unfold Str.not_slash in Hc; now destruct (Str.is_slash c)).
  split; [|cbn; now rewrite Hs].
  unfold target, first_run, after_domain.
  assert (Hdrop : Str.drop_run Str.is_slash (String c d ++ "/" ++ remainder)
                  = String c d ++ "/" ++ remainder)
    by (cbn; now rewrite Hs).
  rewrite Hdrop.
  assert (Hall : Str.all Str.not_slash (String c d) = true)
    by (cbn; now rewrite Hc, Hd).
  change ("/" ++ remainder) with (String "/" remainder).
  rewrite (take_run_stop Str.not_slash _ "/" remainder Hall eq_refl).
  rewrite (drop_run_stop Str.not_slash _ "/" remainder Hall eq_refl).
  cbn [Str.strip_leading_slash]. change (Str.is_slash "/") with true.
  cbv iota. rewrite (take_run_all Str.dot remainder Hr). reflexivity.
Qed.

Lemma target_bare (domain query : string) :
  domain <> "" ->
  Str.all Str.not_slash domain = true ->
  target domain query = "https://" ++ domain ++ "/" ++ query
  /\ Str.all Str.is_slash domain = false.
Proof.
  intros Hne Hd.
  destruct domain as [|c d]; [congruence|].
  assert (Hall := Hd).
  cbn in Hd. apply andb_prop in Hd. destruct Hd as [Hc Hd].
  assert (Hs : Str.is_slash c = false)
    by (unfold Str.not_slash in Hc; now destruct (Str.is_slash c)).
  split; [|cbn; now rewrite Hs].
  unfold target, first_run, after_domain.
  assert (Hdrop : Str.drop_run Str.is_slash (String c d) = String c d)
    by (cbn; now rewrite Hs).
  rewrite Hdrop.
  rewrite (take_run_all Str.not_slash _ Hall).
  rewrite (drop_run_all Str.not_slash _ Hall). reflexivity.
Qed.

(** C2.  For a request that is not OPTIONS and whose path, after the
    leading slash, is [domain/remainder] with a non-empty domain (the
    part before the first slash), the upstream call goes to
    [https://domain/remainder] followed by the query string as it came;
    for a bare domain the remainder is empty and the call goes to
    [https://domain/].  The remainder is the path of a parsed URL, so it
    holds no line terminator. *)
Theorem C2_upstream_url :
  forall (request : Request) (domain remainder : string),
    req_method request <> "OPTIONS" ->
    domain <> "" ->
    Str.all Str.not_slash domain = true ->
    no_line_terminator remainder = true ->
    path_of request = domain ++ "/" ++ remainder
    \/ (path_of request = domain /\ remainder = "") ->
    let url :=
      "https://" ++ domain ++ "/" ++ remainder
                 ++ search (req_url request) in
    handleProxyRequest request = Fetch url (fetch_init request) (relay url).
Proof.
  intros request domain remainder Hm Hne Hd Hr Hpath url. subst url.
  pose proof (handle_forward request Hm) as HF. cbv zeta in HF.
  destruct Hpath as [Hp | [Hp ->]]; rewrite Hp in HF.
  - destruct (target_split domain remainder (search (req_url request))
                Hne Hd Hr) as [Ht Hall].
    rewrite Ht in HF. exact (HF Hall).
  - destruct (target_bare domain (search (req_url request)) Hne Hd)
      as [Ht Hall].
    rewrite Ht in HF. exact (HF Hall).
Qed.

Lemma C2_witness :
  handleProxyRequest (Samples.get "/example.com/foo/bar" "?x=1" [])
  = Fetch "https://example.com/foo/bar?x=1"
          (fetch_init (Samples.get "/example.com/foo/bar" "?x=1" []))
          (relay "https://example.com/foo/bar?x=1")
  /\ handleProxyRequest (Samples.get "/example.com" "" [])
     = Fetch "https://example.com/"
             (fetch_init (Samples.get "/example.com" "" []))
             (relay "https://example.com/").
Proof.
  split.
  - apply (C2_upstream_url (Samples.get "/example.com/foo/bar" "?x=1" [])
             "example.com" "foo/bar").
    + discriminate.
    + discriminate.
    + reflexivity.
    + reflexivity.
    + left. reflexivity.
  - apply (C2_upstream_url (Samples.get "/example.com" "" [])
             "example.com" "").
    + discriminate.
    + discriminate.
    + reflexivity.
    + reflexivity.
    + right. split; reflexivity.
Defined.

(** C10.  For a request that is not OPTIONS and whose path is not empty
    once one leading slash is gone: the answer is status 400 with body
    [{"error":"Invalid path format"}] exactly when the path holds no
    character other than a slash; otherwise the upstream call is made
    and its domain is the first maximal run of characters other than a
    slash, further leading slashes being skipped. *)
Theorem C10_only_slashes_rejected :
  forall (request : Request),
    req_method request <> "OPTIONS" ->
    path_of request <> "" ->
    ((exists r,
         handleProxyRequest request = Ret (Returned r)
         /\ status r = 400
         /\ body r = BodyText (error_text "Invalid path format"))
     <-> Str.all Str.is_slash (path_of request) = true)
    /\ (Str.all Str.is_slash (path_of request) = false ->
        first_run (path_of request) <> ""
        /\ Str.all Str.not_slash (first_run (path_of request)) = true
        /\ exists rest,
            let url :=
              "https://" ++ first_run (path_of request) ++ "/" ++ rest
                         ++ search (req_url request) in
            handleProxyRequest request
            = Fetch url (fetch_init request) (relay url)).
Proof.
  intros request Hm Hp. split; [split|].
  - intros [r [Hr _]].
    destruct (Str.all Str.is_slash (path_of request)) eqn:Hall;
      [reflexivity|].
    rewrite (handle_forward request Hm Hall) in Hr. discriminate.
  - intros Hall. exists invalid_path_response.
    rewrite (handle_slashes request Hm Hp Hall). repeat split.
  - intros Hall. unfold first_run.
    destruct (Str.drop_run Str.is_slash (path_of request)) as [|c r] eqn:Hd.
    { apply drop_run_empty_all in Hd. congruence. }
    assert (Hc : Str.not_slash c = true).
    { unfold Str.not_slash.
      now rewrite (drop_run_head Str.is_slash _ c r Hd). }
    split; [cbn; rewrite Hc; discriminate|].
    split.
    { clear Hd. cbn. rewrite Hc. cbn. rewrite Hc. cbn.
      induction r as [|x r IH]; cbn; [reflexivity|].
      destruct (Str.not_slash x) eqn:Hx; cbn; [now rewrite Hx | reflexivity]. }
    exists (after_domain (String c r)).
    pose proof (handle_forward request Hm Hall) as H.
    unfold target, first_run in H. rewrite Hd in H. exact H.
Qed.

Lemma C10_witness :
  ((exists r,
       handleProxyRequest (Samples.get "///" "" [])
       = Ret (Returned r)
       /\ status r = 400
       /\ body r = BodyText (error_text "Invalid path format"))
   <-> Str.all Str.is_slash (path_of (Samples.get "///" "" [])) = true)
  /\ (Str.all Str.is_slash (path_of (Samples.get "///" "" [])) = false ->
      first_run (path_of (Samples.get "///" "" [])) <> ""
      /\ Str.all Str.not_slash
           (first_run (path_of (Samples.get "///" "" []))) = true
      /\ exists rest,
          let url :=
            "https://" ++ first_run (path_of (Samples.get "///" "" []))
                       ++ "/" ++ rest
                       ++ search (req_url (Samples.get "///" "" [])) in
          handleProxyRequest (Samples.get "///" "" [])
          = Fetch url (fetch_init (Samples.get "///" "" [])) (relay url)).
Proof.
  apply (C10_only_slashes_rejected (Samples.get "///" "" [])).
  - discriminate.
  - discriminate.
Defined.

Example C10_skips_leading_slashes :
  first_run (path_of (Samples.get "///a.example//x" "" [])) = "a.example"
  /\ handleProxyRequest (Samples.get "///a.example//x" "" [])
     = Fetch "https://a.example//x"
             (fetch_init (Samples.get "///a.example//x" "" []))
             (relay "https://a.example//x").
Proof. split; reflexivity. Qed.

(* ===================================================================== *)
(** ** Reading back what [JSON.stringify] writes *)

Lemma string_app_assoc (a b c : string) : (a ++ b) ++ c = a ++ b ++ c.
Proof. induction a as [|x a IH]; cbn; [reflexivity | now rewrite IH]. Qed.

Lemma string_length_app (a b : string) :
  String.length (a ++ b) = String.length a + String.length b.
Proof. induction a as [|x a IH]; cbn; [reflexivity | now rewrite IH]. Qed.

(** Every character comes back from its escape. *)
Lemma read_chars_escape_char (c : ascii) (t : string) :
  JSONRead.read_chars (JSON.escape_char c ++ t)
  = JSONRead.push c (JSONRead.read_chars t).
Proof.
  destruct c as [[] [] [] [] [] [] [] []]; reflexivity.
Qed.

Lemma read_chars_escape (s rest : string) :
  JSONRead.read_chars (JSON.escape s ++ JSON.quote ++ rest)
  = Some (s, rest).
Proof.
  induction s as [|c s IH]; [reflexivity|].
  cbn [JSON.escape]. rewrite string_app_assoc, read_chars_escape_char.
  now rewrite IH.
Qed.

Lemma read_string_quoted (s rest : string) :
  JSONRead.read_string (JSON.quoted s ++ rest) = Some (s, rest).
Proof.
  unfold JSON.quoted. rewrite !string_app_assoc.
  change (JSON.quote ++ JSON.escape s ++ JSON.quote ++ rest)
    with (String "034" (JSON.escape s ++ JSON.quote ++ rest)).
  cbn [JSONRead.read_string].
  change (JSONRead.is_char "034" 34) with true. cbv iota.
  apply read_chars_escape.
Qed.

Lemma member_app (kv : string * string) (rest : string) :
  JSON.member kv ++ rest
  = JSON.quoted (fst kv) ++ String ":" (JSON.quoted (snd kv) ++ rest).
Proof. unfold JSON.member. now rewrite !string_app_assoc. Qed.

Lemma member_length (kv : string * string) :
  1 <= String.length (JSON.member kv).
Proof. unfold JSON.member, JSON.quoted. cbn. lia. Qed.

Lemma read_members_join (obj : list (string * string)) :
  forall (kv : string * string) (fuel : nat),
    length obj < fuel ->
    JSONRead.read_members fuel
      (Str.join "," (map JSON.member (kv :: obj)) ++ "}")
    = Some (kv :: obj).
Proof.
  induction obj as [|kv2 obj IH]; intros [k v] fuel Hfuel;
    (destruct fuel as [|fuel]; [cbn in Hfuel; lia|]).
  - cbn [map Str.join]. rewrite member_app.
    cbn [JSONRead.read_members fst snd].
    rewrite read_string_quoted.
    change (JSONRead.is_char ":" 58) with true. cbv iota.
    rewrite read_string_quoted. reflexivity.
  - change (Str.join "," (map JSON.member ((k, v) :: kv2 :: obj)))
      with (JSON.member (k, v)
              ++ "," ++ Str.join "," (map JSON.member (kv2 :: obj))).
    rewrite !string_app_assoc, member_app.
    cbn [JSONRead.read_members fst snd].
    rewrite read_string_quoted.
    change (JSONRead.is_char ":" 58) with true. cbv iota.
    rewrite read_string_quoted.
    change ("," ++ Str.join "," (map JSON.member (kv2 :: obj)) ++ "}")
      with (String "," (Str.join "," (map JSON.member (kv2 :: obj)) ++ "}")).
    change (JSONRead.is_char "," 44) with true. cbv iota.
    rewrite IH by (cbn in Hfuel; lia). reflexivity.
Qed.

Lemma join_members_length (obj : list (string * string)) :
  forall (kv : string * string) (rest : string),
    length (kv :: obj)
    <= String.length (Str.join "," (map JSON.member (kv :: obj)) ++ rest).
Proof.
  induction obj as [|kv2 obj IH]; intros kv rest.
  - cbn [map Str.join length]. rewrite string_length_app.
    pose proof (member_length kv). lia.
  - change (Str.join "," (map JSON.member (kv :: kv2 :: obj)))
      with (JSON.member kv
              ++ "," ++ Str.join "," (map JSON.member (kv2 :: obj))).
    rewrite !string_app_assoc, string_length_app.
    change ("," ++ Str.join "," (map JSON.member (kv2 :: obj)) ++ rest)
      with (String "," (Str.join "," (map JSON.member (kv2 :: obj))
                          ++ rest)).
    pose proof (member_length kv). pose proof (IH kv2 rest).
    cbn [String.length length] in *. lia.
Qed.

(** Reading the text of an object gives its members back, whatever
    characters they hold. *)
Lemma parse_stringify (obj : list (string * string)) :
  JSONRead.parse_object (JSON.stringify obj) = Some obj.
Proof.
  destruct obj as [|[k v] obj]; [reflexivity|].
  unfold JSON.stringify.
  change ("{" ++ Str.join "," (map JSON.member ((k, v) :: obj)) ++ "}")
    with (String "{" (Str.join "," (map JSON.member ((k, v) :: obj))
                        ++ "}")).
  cbn [JSONRead.parse_object].
  change (JSONRead.is_char "{" 123) with true. cbv iota.
  pose proof (join_members_length obj (k, v) "}") as Hlen.
  pose proof (read_members_join obj (k, v)) as Hread.
  destruct (Str.join "," (map JSON.member ((k, v) :: obj)) ++ "}")
    as [|d [|e t]] eqn:Ht.
  - cbn in Hlen. lia.
  - exfalso.
    assert (Hm : 2 <= String.length
                        (Str.join "," (map JSON.member ((k, v) :: obj))
                           ++ "}")).
    { destruct obj as [|kv2 obj].
      - cbn [map Str.join]. rewrite member_app, string_length_app.
        unfold JSON.quoted. cbn. lia.
      - change (Str.join "," (map JSON.member ((k, v) :: kv2 :: obj)))
          with (JSON.member (k, v)
                  ++ "," ++ Str.join "," (map JSON.member (kv2 :: obj))).
        rewrite !string_app_assoc, string_length_app.
        pose proof (member_length (k, v)). cbn. lia. }
    rewrite Ht in Hm. cbn in Hm. lia.
  - apply Hread. cbn [length String.length] in *. lia.
Qed.

Lemma escape_plain (s : string) : plain s = true -> JSON.escape s = s.
Proof.
  induction s as [|c s IH]; [reflexivity|].
  cbn [plain Str.all JSON.escape]. intros H.
  apply andb_prop in H. destruct H as [Hc Hs].
  fold (plain s) in Hs. rewrite (IH Hs).
  clear IH Hs. revert Hc.
  destruct c as [[] [] [] [] [] [] [] []];
    cbn; intros Hc; (discriminate Hc || reflexivity).
Qed.

Lemma stringify_failure_plain (message url : string) :
  plain message = true ->
  plain url = true ->
  JSON.stringify [("error", "Proxy error");
                  ("message", message);
                  ("url", url)]
  = failure_text message url.
Proof.
  intros Hm Hu. unfold JSON.stringify, failure_text.
  cbn [map Str.join]. unfold JSON.member, JSON.quoted. cbn [fst snd].
  rewrite (escape_plain message Hm), (escape_plain url Hu).
  rewrite !string_app_assoc. reflexivity.
Qed.

(** C7.  When the upstream call of a forwarded request fails, the
    handler answers with status 500 and a JSON body whose members are,
    in this order, [error] with the value "Proxy error", [message] with
    the message of the error (or "Unknown error" when what was thrown is
    no [Error]), and [url] with the URL the call was made to.  The body
    is read back by a reader of its own; for a message and a URL without
    quotes, backslashes and control characters the text is given
    literally. *)
Theorem C7_fetch_failure_envelope :
  forall (request : Request) (url : string) (init : RequestInit)
         (k : FetchResult -> Prog Outcome) (err : Thrown),
    handleProxyRequest request = Fetch url init k ->
    let message :=
      match err with
      | ErrorObject m => m
      | OtherValue => "Unknown error"
      end in
    exists r text,
      k (Rejected err) = Ret (Returned r)
      /\ status r = 500
      /\ body r = BodyText text
      /\ JSONRead.parse_object text
         = Some [("error", "Proxy error");
                 ("message", message);
                 ("url", url)]
      /\ (plain message = true -> plain url = true ->
          text = failure_text message url)
      /\ Headers.get "content-type" (headers r)
         = Some "application/json; charset=utf-8".
Proof.
  intros request url init k err H message.
  destruct (handle_fetch_inv request url init k H) as (_ & _ & _ & _ & ->).
  exists (json_response [("error", "Proxy error");
                         ("message", message);
                         ("url", url)] 500),
         (JSON.stringify [("error", "Proxy error");
                          ("message", message);
                          ("url", url)]).
  split; [now destruct err|].
  split; [reflexivity|].
  split; [reflexivity|].
  split; [apply parse_stringify|].
  split; [apply stringify_failure_plain | reflexivity].
Qed.

Lemma C7_witness :
  exists r text,
    relay "https://no-such-host.example/repo.git"
          (Rejected (ErrorObject "Unable to connect")) = Ret (Returned r)
    /\ status r = 500
    /\ body r = BodyText text
    /\ JSONRead.parse_object text
       = Some [("error", "Proxy error");
               ("message", "Unable to connect");
               ("url", "https://no-such-host.example/repo.git")]
    /\ (plain "Unable to connect" = true ->
        plain "https://no-such-host.example/repo.git" = true ->
        text = failure_text "Unable to connect"
                            "https://no-such-host.example/repo.git")
    /\ Headers.get "content-type" (headers r)
       = Some "application/json; charset=utf-8".
Proof.
  apply (C7_fetch_failure_envelope
           (Samples.get "/no-such-host.example/repo.git" "" [])
           "https://no-such-host.example/repo.git"
           (fetch_init (Samples.get "/no-such-host.example/repo.git" "" []))
           (relay "https://no-such-host.example/repo.git")
           (ErrorObject "Unable to connect")).
  reflexivity.
Defined.

(** The same envelope on a message and a URL that need escaping: a
    quote, a backslash and a line feed are written as their escapes. *)
Example failure_envelope_escaped :
  let message :=
    "no " ++ JSON.quote ++ "route" ++ String "010"%char "to host" in
  let url := "https://a.example/?q=" ++ JSON.backslash in
  exists r,
    relay url (Rejected (ErrorObject message)) = Ret (Returned r)
    /\ body r
       = BodyText
           ("{" ++ JSON.quote ++ "error" ++ JSON.quote ++ ":"
                ++ JSON.quote ++ "Proxy error" ++ JSON.quote ++ ","
                ++ JSON.quote ++ "message" ++ JSON.quote ++ ":"
                ++ JSON.quote ++ "no " ++ JSON.backslash ++ JSON.quote
                ++ "route" ++ JSON.backslash ++ "nto host"
                ++ JSON.quote ++ ","
                ++ JSON.quote ++ "url" ++ JSON.quote ++ ":"
                ++ JSON.quote ++ "https://a.example/?q="
                ++ JSON.backslash ++ JSON.backslash ++ JSON.quote ++ "}").
Proof. eexists. split; reflexivity. Qed.

(* ===================================================================== *)
(** ** Header filtering, towards the upstream *)

Section Outbound.
Import HeadersFacts.

Variable request : Request.

(** The three [set] calls of lines 98 to 100 leave every other name as
    the loop over [ALLOW_HEADERS] made it. *)
Lemma get_context_headers (n : string) :
  ~ In (Str.lower n) FORWARDING_HEADERS ->
  Headers.get n (context_headers request)
  = if copied (fun _ => false) ALLOW_HEADERS n
    then Headers.get n (req_headers request)
    else None.
Proof.
  intros Hn. unfold context_headers.
  rewrite !get_set_other, copy_allowed_loop, get_copy_loop
    by (try apply ALLOW_HEADERS_lower;
        intros E; apply Hn; rewrite E; cbn; auto).
  destruct (copied _ _ n); [|reflexivity].
  now destruct (Headers.get n (req_headers request)).
Qed.

Lemma get_context_user_agent :
  Headers.get "user-agent" (context_headers request)
  = Headers.get "user-agent" (req_headers request).
Proof.
  rewrite get_context_headers; [reflexivity|].
  cbn. intuition discriminate.
Qed.

(** A name outside both lists is on no upstream request. *)
Lemma get_forward_headers_unlisted (n : string) :
  ~ In (Str.lower n) ALLOW_HEADERS ->
  ~ In (Str.lower n) FORWARDING_HEADERS ->
  Headers.get n (forward_headers request) = None.
Proof.
  intros Ha Hf.
  assert (Hc : Headers.get n (context_headers request) = None)
    by (rewrite (get_context_headers n Hf);
        now rewrite (copied_false _ ALLOW_HEADERS n Ha)).
  unfold forward_headers.
  destruct (falsy _ || negb _); [|exact Hc].
  rewrite get_set_other; [exact Hc|].
  intros E. apply Ha. rewrite E. cbn. tauto.
Qed.

End Outbound.

Lemma lower_char_slash (c : ascii) :
  Ascii.eqb (Str.lower_char c) "/" = Str.is_slash c.
Proof. destruct c as [[] [] [] [] [] [] [] []]; reflexivity. Qed.

(** The anchored pattern accepts exactly the values that start with
    "git/" once lowercased. *)
Lemma test_git_ua_starts_with (ua : string) :
  test_git_ua ua = starts_with_git ua.
Proof.
  unfold test_git_ua, starts_with_git, Regex.match_here, git_ua_re.
  destruct ua as [|c1 [|c2 [|c3 [|c4 r]]]];
    cbn [Regex.exec Str.lower starts_with];
    unfold ci;
    rewrite ?lower_char_slash;
    change (Str.lower_char "g") with "g"%char;
    change (Str.lower_char "i") with "i"%char;
    change (Str.lower_char "t") with "t"%char;
    repeat match goal with
           | |- context [Ascii.eqb (Str.lower_char ?c) ?x] =>
               destruct (Ascii.eqb (Str.lower_char c) x); cbn [andb]
           end;
    try reflexivity;
    destruct (Str.is_slash c4); reflexivity.
Qed.

(** C1, as amended.  For a request that is not OPTIONS, a header name
    that is on the inbound request, is not in the allowed list and is
    not one of the three forwarding-context names (all compared without
    case) is not among the headers of the upstream request. *)
Theorem C1_unlisted_inbound_header_dropped :
  forall (request : Request) (n url : string) (init : RequestInit)
         (k : FetchResult -> Prog Outcome),
    req_method request <> "OPTIONS" ->
    Headers.has n (req_headers request) = true ->
    ~ In (Str.lower n) ALLOW_HEADERS ->
    ~ In (Str.lower n) FORWARDING_HEADERS ->
    handleProxyRequest request = Fetch url init k ->
    Headers.has n (init_headers init) = false.
Proof.
  intros request n url init k _ _ Ha Hf H.
  destruct (handle_fetch_inv request url init k H) as (_ & _ & _ & -> & _).
  apply HeadersFacts.has_false_get.
  now apply get_forward_headers_unlisted.
Qed.

Lemma C1_witness :
  Headers.has "Cookie" (req_headers Samples.with_cookie) = true
  /\ Headers.has "Cookie" (init_headers (fetch_init Samples.with_cookie))
     = false.
Proof.
  split; [reflexivity|].
  apply (C1_unlisted_inbound_header_dropped
           Samples.with_cookie "Cookie" "https://example.com/foo?x=1"
           (fetch_init Samples.with_cookie)
           (relay "https://example.com/foo?x=1")).
  - discriminate.
  - reflexivity.
  - cbn. intuition discriminate.
  - cbn. intuition discriminate.
  - reflexivity.
Defined.

(** C1 as it was stated fails on a forwarded-for header: it is no allowed
    name, it is on the inbound request, and line 99 puts it on the
    upstream request with the inbound value. *)
Lemma C1_counterexample :
  req_method Samples.with_cookie <> "OPTIONS"
  /\ Headers.has "x-forwarded-for" (req_headers Samples.with_cookie) = true
  /\ ~ In (Str.lower "x-forwarded-for") ALLOW_HEADERS
  /\ exists init k,
      handleProxyRequest Samples.with_cookie
      = Fetch "https://example.com/foo?x=1" init k
      /\ Headers.has "x-forwarded-for" (init_headers init) = true
      /\ Headers.get "x-forwarded-for" (init_headers init) = Some "1.2.3.4".
Proof.
  split; [discriminate|].
  split; [reflexivity|].
  split; [cbn; intuition discriminate|].
  exists (fetch_init Samples.with_cookie),
         (relay "https://example.com/foo?x=1").
  repeat split.
Qed.



(* ===================================================================== *)
(** ** Header filtering, towards the client *)

Lemma get_not_in (n : string) (h : Headers.t) :
  ~ In (Str.lower n) (map fst h) -> Headers.get n h = None.
Proof.
  unfold Headers.get. induction h as [|e h IH]; cbn; [reflexivity|].
  intros Hn. unfold Headers.named at 1.
  destruct (String.eqb (fst e) (Str.lower n)) eqn:E.
  - apply String.eqb_eq in E. tauto.
  - apply IH. tauto.
Qed.

Lemma cors_names :
  map fst (Headers.of_record corsHeaders) = CORS_HEADER_NAMES.
Proof. reflexivity. Qed.

Section Inbound.
Import HeadersFacts.

Variable upstream : Upstream.

Lemma get_copy_exposed (n : string) (out : Headers.t) :
  Headers.get n (copy_exposed (up_headers upstream) out)
  = if copied (fun h => String.eqb h "content-length") EXPOSE_HEADERS n
    then match Headers.get n (up_headers upstream) with
         | Some v => Some v
         | None => Headers.get n out
         end
    else Headers.get n out.
Proof.
  rewrite copy_exposed_loop. apply get_copy_loop, EXPOSE_HEADERS_lower.
Qed.

(** The length of the upstream body is on no client-facing response. *)
Lemma get_response_content_length (n : string) :
  Str.lower n = "content-length" ->
  Headers.get n (response_headers upstream) = None.
Proof.
  intros Hn.
  assert (Hc : Headers.get n
                 (copy_exposed (up_headers upstream)
                               (Headers.of_record corsHeaders)) = None).
  { rewrite get_copy_exposed. unfold copied. rewrite Hn.
    cbn [existsb EXPOSE_HEADERS String.eqb Ascii.eqb Bool.eqb andb orb negb].
    now rewrite (get_lower_eq n "content-length"). }
  unfold response_headers. destruct (up_redirected upstream); [|exact Hc].
  rewrite get_set_other; [exact Hc|]. rewrite Hn. discriminate.
Qed.

(** A name outside the exposed list and the CORS names is on no
    client-facing response. *)
Lemma get_response_unlisted (n : string) :
  ~ In (Str.lower n) EXPOSE_HEADERS ->
  ~ In (Str.lower n) CORS_HEADER_NAMES ->
  Headers.get n (response_headers upstream) = None.
Proof.
  intros He Hc.
  assert (Hout : Headers.get n
                   (copy_exposed (up_headers upstream)
                                 (Headers.of_record corsHeaders)) = None).
  { rewrite get_copy_exposed, (copied_false _ EXPOSE_HEADERS n He).
    apply get_not_in. now rewrite cors_names. }
  unfold response_headers. destruct (up_redirected upstream); [|exact Hout].
  rewrite get_set_other; [exact Hout|].
  intros E. apply He. rewrite E. cbn. tauto.
Qed.


End Inbound.

(* ===================================================================== *)
(** ** The callback of [Bun.serve] *)

Lemma new_Response_in_range (b : Body) (s : nat) (text : string)
      (h : Headers.t) :
  status_in_range s ->
  new_Response b s text h
  = Returned {| status := s; statusText := text; headers := h; body := b |}.
Proof.
  intros [Hlo Hhi]. unfold new_Response.
  apply Nat.leb_le in Hlo, Hhi. now rewrite Hlo, Hhi.
Qed.

Lemma new_Response_out_of_range (b : Body) (s : nat) (text : string)
      (h : Headers.t) :
  ~ status_in_range s -> new_Response b s text h = RangeError s.
Proof.
  intros Hs. unfold new_Response, status_in_range in *.
  destruct (200 <=? s)%nat eqn:Hlo; [|reflexivity].
  destruct (s <=? 599)%nat eqn:Hhi; [|reflexivity].
  apply Nat.leb_le in Hlo, Hhi. lia.
Qed.

Lemma status_in_range_dec (s : nat) :
  {status_in_range s} + {~ status_in_range s}.
Proof.
  unfold status_in_range.
  destruct (le_dec 200 s); destruct (le_dec s 599); (left; lia) || (right; lia).
Qed.

Section ClientAnswer.

Variable describe : nat -> string.

Lemma client_answer_rejected (url : string) (err : Thrown) :
  client_answer describe url (Rejected err)
  = Ret (Returned (json_response [("error", "Proxy error");
                                  ("message", error_message err);
                                  ("url", url)] 500)).
Proof. reflexivity. Qed.

Lemma client_answer_in_range (url : string) (upstream : Upstream) :
  status_in_range (up_status upstream) ->
  client_answer describe url (Resolved upstream)
  = Ret (Returned (relayed_response upstream)).
Proof.
  intros Hs. unfold client_answer. cbn [relay bind].
  now rewrite new_Response_in_range.
Qed.

Lemma client_answer_out_of_range (url : string) (upstream : Upstream) :
  ~ status_in_range (up_status upstream) ->
  client_answer describe url (Resolved upstream)
  = Ret (Returned (json_response
                     [("error", "Proxy error");
                      ("message", describe (up_status upstream))] 500)).
Proof.
  intros Hs. unfold client_answer. cbn [relay bind].
  now rewrite new_Response_out_of_range.
Qed.

Lemma serve_forward (request : Request) :
  req_method request <> "OPTIONS" ->
  Str.all Str.is_slash (path_of request) = false ->
  let url := target (path_of request) (search (req_url request)) in
  serve describe request
  = Fetch url (fetch_init request) (client_answer describe url).
Proof.
  intros Hm Hall url. unfold serve.
  rewrite (handle_forward request Hm Hall). reflexivity.
Qed.

(** Every upstream call of the callback is the one of the handler, and
    what follows it is [client_answer]. *)
Lemma serve_fetch_inv (request : Request) (url : string)
      (init : RequestInit) (k : FetchResult -> Prog Outcome) :
  serve describe request = Fetch url init k ->
  handleProxyRequest request = Fetch url init (relay url)
  /\ init = fetch_init request
  /\ k = client_answer describe url.
Proof.
  intros H. unfold serve in H.
  destruct (handleProxyRequest request) as [o|url' init' k'] eqn:Hh;
    [discriminate|].
  destruct (handle_fetch_inv request url' init' k' Hh)
    as (_ & _ & _ & -> & ->).
  cbn [bind] in H. injection H as <- <-. auto.
Qed.

(** The callback never ends with an error: after the upstream call
    there is always a response. *)
Lemma client_answer_returns (url : string) (result : FetchResult) :
  exists r, client_answer describe url result = Ret (Returned r).
Proof.
  destruct result as [u|err].
  - destruct (status_in_range_dec (up_status u)) as [Hs|Hs].
    + eexists. now apply client_answer_in_range.
    + eexists. now apply client_answer_out_of_range.
  - eexists. apply client_answer_rejected.
Qed.

End ClientAnswer.

(** The one header of a JSON answer is the content-type. *)
Lemma json_response_has (data : list (string * string)) (s : nat)
      (n : string) :
  Str.lower n <> "content-type" ->
  Headers.has n (headers (json_response data s)) = false.
Proof.
  intros Hn. unfold Headers.has, json_response.
  cbn [headers existsb]. unfold Headers.named. cbn [fst].
  rewrite orb_false_r. apply String.eqb_neq. congruence.
Qed.

(** C5.  After a successful upstream call the response the client is
    answered has no content-length header, whatever the upstream
    response carries and whatever its status. *)
Theorem C5_content_length_not_copied :
  forall (describe : nat -> string) (request : Request) (url : string)
         (init : RequestInit) (k : FetchResult -> Prog Outcome)
         (upstream : Upstream) (n : string),
    serve describe request = Fetch url init k ->
    Str.lower n = "content-length" ->
    exists r,
      k (Resolved upstream) = Ret (Returned r)
      /\ Headers.has n (headers r) = false.
Proof.
  intros describe request url init k upstream n H Hn.
  destruct (serve_fetch_inv describe request url init k H) as (_ & _ & ->).
  destruct (status_in_range_dec (up_status upstream)) as [Hs|Hs].
  - rewrite (client_answer_in_range describe url upstream Hs).
    eexists. split; [reflexivity|].
    apply HeadersFacts.has_false_get. cbn [headers relayed_response].
    now apply get_response_content_length.
  - rewrite (client_answer_out_of_range describe url upstream Hs).
    eexists. split; [reflexivity|].
    apply json_response_has. rewrite Hn. discriminate.
Qed.

Lemma C5_witness :
  Headers.has "Content-Length" (up_headers Samples.with_set_cookie) = true
  /\ exists r,
      client_answer Samples.describe "https://example.com/foo?x=1"
                    (Resolved Samples.with_set_cookie)
      = Ret (Returned r)
      /\ Headers.has "Content-Length" (headers r) = false.
Proof.
  split; [reflexivity|].
  apply (C5_content_length_not_copied
           Samples.describe Samples.with_cookie "https://example.com/foo?x=1"
           (fetch_init Samples.with_cookie)
           (client_answer Samples.describe "https://example.com/foo?x=1")
           Samples.with_set_cookie "Content-Length").
  - reflexivity.
  - reflexivity.
Defined.

(** C6, as amended.  After a successful upstream call, a header name
    that is on the upstream response, is not in the exposed list and is
    not the name of one of the five CORS headers (all compared without
    case) is not among the headers of the response the client is
    answered, whatever the status of the upstream response. *)
Theorem C6_unlisted_upstream_header_dropped :
  forall (describe : nat -> string) (request : Request) (url : string)
         (init : RequestInit) (k : FetchResult -> Prog Outcome)
         (upstream : Upstream) (n : string),
    serve describe request = Fetch url init k ->
    Headers.has n (up_headers upstream) = true ->
    ~ In (Str.lower n) EXPOSE_HEADERS ->
    ~ In (Str.lower n) CORS_HEADER_NAMES ->
    exists r,
      k (Resolved upstream) = Ret (Returned r)
      /\ Headers.has n (headers r) = false.
Proof.
  intros describe request url init k upstream n H _ He Hc.
  destruct (serve_fetch_inv describe request url init k H) as (_ & _ & ->).
  destruct (status_in_range_dec (up_status upstream)) as [Hs|Hs].
  - rewrite (client_answer_in_range describe url upstream Hs).
    eexists. split; [reflexivity|].
    apply HeadersFacts.has_false_get. cbn [headers relayed_response].
    now apply get_response_unlisted.
  - rewrite (client_answer_out_of_range describe url upstream Hs).
    eexists. split; [reflexivity|].
    apply json_response_has. intros E. apply He. rewrite E. cbn. tauto.
Qed.

Lemma C6_witness :
  Headers.has "Set-Cookie" (up_headers Samples.with_set_cookie) = true
  /\ exists r,
      client_answer Samples.describe "https://example.com/foo?x=1"
                    (Resolved Samples.with_set_cookie)
      = Ret (Returned r)
      /\ Headers.has "Set-Cookie" (headers r) = false.
Proof.
  split; [reflexivity|].
  apply (C6_unlisted_upstream_header_dropped
           Samples.describe Samples.with_cookie "https://example.com/foo?x=1"
           (fetch_init Samples.with_cookie)
           (client_answer Samples.describe "https://example.com/foo?x=1")
           Samples.with_set_cookie "Set-Cookie").
  - reflexivity.
  - reflexivity.
  - cbn. intuition discriminate.
  - cbn. intuition discriminate.
Defined.

(** C6 as it was stated fails on a CORS header of the upstream: the name
    is on the upstream response and not in the exposed list, and the
    response the client is answered has a header of that name, with the
    value that [corsHeaders] gives it and not the upstream's. *)
Lemma C6_counterexample :
  Headers.has "access-control-allow-origin"
              (up_headers Samples.with_set_cookie) = true
  /\ ~ In (Str.lower "access-control-allow-origin") EXPOSE_HEADERS
  /\ exists init k r,
      serve Samples.describe Samples.with_cookie
      = Fetch "https://example.com/foo?x=1" init k
      /\ k (Resolved Samples.with_set_cookie) = Ret (Returned r)
      /\ status r = 200
      /\ Headers.has "access-control-allow-origin" (headers r) = true
      /\ Headers.get "access-control-allow-origin" (headers r) = Some "*".
Proof.
  split; [reflexivity|].
  split; [cbn; intuition discriminate|].
  eexists. eexists. eexists.
  split; [reflexivity|].
  split; [reflexivity|].
  repeat split.
Qed.




(* ===================================================================== *)
(** ** Further facts about the upstream request *)

Lemma copied_true (skip : string -> bool) (l : list string) (n : string) :
  In (Str.lower n) l -> skip (Str.lower n) = false -> copied skip l n = true.
Proof.
  intros Hin Hs. unfold copied. apply existsb_exists.
  exists (Str.lower n). split; [exact Hin|].
  now rewrite String.eqb_refl, Hs.
Qed.

Lemma allow_not_forwarding (x : string) :
  In x ALLOW_HEADERS -> ~ In x FORWARDING_HEADERS.
Proof.
  intros Ha Hf. cbn in Ha, Hf.
  repeat (destruct Ha as [Ha|Ha];
          [subst x; repeat (destruct Hf as [Hf|Hf]; [discriminate|]);
           exact Hf|]).
  exact Ha.
Qed.

Lemma expose_not_cors (x : string) :
  In x EXPOSE_HEADERS -> ~ In x CORS_HEADER_NAMES.
Proof.
  intros He Hc. cbn in He, Hc.
  repeat (destruct He as [He|He];
          [subst x; repeat (destruct Hc as [Hc|Hc]; [discriminate|]);
           exact Hc|]).
  exact He.
Qed.

Section OutboundValues.
Import HeadersFacts.

Variable request : Request.

Lemma get_forward_not_user_agent (n : string) :
  Str.lower n <> "user-agent" ->
  Headers.get n (forward_headers request)
  = Headers.get n (context_headers request).
Proof.
  intros Hn. unfold forward_headers.
  destruct (falsy _ || negb _); [|reflexivity].
  now apply get_set_other.
Qed.

Lemma get_forward_user_agent :
  Headers.get "user-agent" (forward_headers request)
  = Some match Headers.get "user-agent" (req_headers request) with
         | Some ua => if starts_with_git ua then ua else PROXY_UA
         | None => PROXY_UA
         end.
Proof.
  unfold forward_headers. rewrite (get_context_user_agent request).
  destruct (Headers.get "user-agent" (req_headers request)) as [ua|] eqn:Hg.
  - cbn [test_argument]. rewrite test_git_ua_starts_with.
    destruct (starts_with_git ua) eqn:Hua.
    + destruct ua as [|c r]; [discriminate Hua|].
      cbn [falsy orb negb].
      now rewrite (get_context_user_agent request).
    + rewrite orb_true_r. now apply get_set_same.
  - cbn [falsy orb]. now apply get_set_same.
Qed.

Lemma get_forward_allowed (n : string) :
  In (Str.lower n) ALLOW_HEADERS ->
  Str.lower n <> "user-agent" ->
  Headers.get n (forward_headers request)
  = Headers.get n (req_headers request).
Proof.
  intros Ha Hu.
  rewrite (get_forward_not_user_agent n Hu).
  rewrite (get_context_headers request n (allow_not_forwarding _ Ha)).
  now rewrite (copied_true _ ALLOW_HEADERS n Ha eq_refl).
Qed.

Lemma get_forward_proto (n : string) :
  Str.lower n = "x-forwarded-proto" ->
  Headers.get n (forward_headers request)
  = Some (Str.remove_first_colon (protocol (req_url request))).
Proof.
  intros Hn.
  rewrite get_forward_not_user_agent by (rewrite Hn; discriminate).
  unfold context_headers.
  rewrite !get_set_other by (rewrite Hn; discriminate).
  now apply get_set_same.
Qed.

Lemma get_forward_for (n : string) :
  Str.lower n = "x-forwarded-for" ->
  Headers.get n (forward_headers request)
  = Some match Headers.get "x-forwarded-for" (req_headers request) with
         | Some v => v
         | None => "0.0.0.0"
         end.
Proof.
  intros Hn.
  rewrite get_forward_not_user_agent by (rewrite Hn; discriminate).
  unfold context_headers.
  rewrite get_set_other by (rewrite Hn; discriminate).
  now apply get_set_same.
Qed.

Lemma get_forward_host (n : string) :
  Str.lower n = "x-forwarded-host" ->
  Headers.get n (forward_headers request) = Some (host (req_url request)).
Proof.
  intros Hn.
  rewrite get_forward_not_user_agent by (rewrite Hn; discriminate).
  unfold context_headers. now apply get_set_same.
Qed.

End OutboundValues.

Lemma PROXY_UA_is_git : starts_with_git PROXY_UA = true.
Proof. reflexivity. Qed.





(** X3.  The names on the upstream request are exactly: the three
    forwarding-context names, user-agent, and the allowed names that are
    on the inbound request.  In particular no Host header is ever sent,
    whatever the inbound request carries. *)
Theorem X3_upstream_header_names :
  forall (request : Request) (url : string) (init : RequestInit)
         (k : FetchResult -> Prog Outcome) (n : string),
    handleProxyRequest request = Fetch url init k ->
    (Headers.has n (init_headers init) = true
     <-> In (Str.lower n) FORWARDING_HEADERS
         \/ Str.lower n = "user-agent"
         \/ (In (Str.lower n) ALLOW_HEADERS
             /\ Headers.has n (req_headers request) = true)).
Proof.
  intros request url init k n H.
  destruct (handle_fetch_inv request url init k H) as (_ & _ & _ & -> & _).
  cbn [init_headers fetch_init].
  rewrite !HeadersFacts.has_get.
  destruct (in_dec string_dec (Str.lower n) FORWARDING_HEADERS) as [Hf|Hf].
  { split; [tauto|]. intros _. cbn in Hf.
    destruct Hf as [Hf|[Hf|[Hf|[]]]]; symmetry in Hf.
    - now rewrite (get_forward_proto request n Hf).
    - now rewrite (get_forward_for request n Hf).
    - now rewrite (get_forward_host request n Hf). }
  destruct (string_dec (Str.lower n) "user-agent") as [Hu|Hu].
  { split; [tauto|]. intros _.
    rewrite (HeadersFacts.get_lower_eq n "user-agent") by exact Hu.
    now rewrite get_forward_user_agent. }
  destruct (in_dec string_dec (Str.lower n) ALLOW_HEADERS) as [Ha|Ha].
  - rewrite (get_forward_allowed request n Ha Hu). tauto.
  - rewrite (get_forward_headers_unlisted request n Ha Hf).
    split; [discriminate|]. tauto.
Qed.

Lemma X3_witness :
  Headers.has "Host"
    (init_headers
       (fetch_init
          (Samples.get "/example.com/r.git" "" [("Host", "localhost:3000")])))
  = true
  <-> In (Str.lower "Host") FORWARDING_HEADERS
      \/ Str.lower "Host" = "user-agent"
      \/ (In (Str.lower "Host") ALLOW_HEADERS
          /\ Headers.has "Host"
               (req_headers
                  (Samples.get "/example.com/r.git" ""
                     [("Host", "localhost:3000")])) = true).
Proof.
  apply (X3_upstream_header_names
           (Samples.get "/example.com/r.git" "" [("Host", "localhost:3000")])
           "https://example.com/r.git"
           (fetch_init
              (Samples.get "/example.com/r.git" ""
                 [("Host", "localhost:3000")]))
           (relay "https://example.com/r.git") "Host").
  reflexivity.
Defined.

(** X4.  Every upstream request carries a user-agent, and it always
    starts with "git/" (letters compared without case): either the
    inbound one or the identifier of the proxy. *)
Theorem X4_upstream_user_agent_is_git :
  forall (request : Request) (url : string) (init : RequestInit)
         (k : FetchResult -> Prog Outcome),
    handleProxyRequest request = Fetch url init k ->
    exists ua,
      Headers.get "user-agent" (init_headers init) = Some ua
      /\ starts_with_git ua = true.
Proof.
  intros request url init k H.
  destruct (handle_fetch_inv request url init k H) as (_ & _ & _ & -> & _).
  cbn [init_headers fetch_init]. rewrite get_forward_user_agent.
  eexists. split; [reflexivity|].
  destruct (Headers.get "user-agent" (req_headers request)) as [ua|];
    [|exact PROXY_UA_is_git].
  destruct (starts_with_git ua) eqn:Hua; [exact Hua | exact PROXY_UA_is_git].
Qed.

Lemma X4_witness :
  exists ua,
    Headers.get "user-agent"
      (init_headers
         (fetch_init
            (Samples.get "/example.com/r.git" ""
               [("User-Agent", "Mozilla/5.0")]))) = Some ua
    /\ starts_with_git ua = true.
Proof.
  apply (X4_upstream_user_agent_is_git
           (Samples.get "/example.com/r.git" ""
              [("User-Agent", "Mozilla/5.0")])
           "https://example.com/r.git"
           (fetch_init
              (Samples.get "/example.com/r.git" ""
                 [("User-Agent", "Mozilla/5.0")]))
           (relay "https://example.com/r.git")).
  reflexivity.
Defined.

(* ===================================================================== *)
(** ** Further facts about the client-facing response *)

Section InboundValues.
Import HeadersFacts.

Variable upstream : Upstream.

Lemma get_response_not_redirect_name (n : string) :
  Str.lower n <> "x-redirected-url" ->
  Headers.get n (response_headers upstream)
  = Headers.get n (copy_exposed (up_headers upstream)
                                (Headers.of_record corsHeaders)).
Proof.
  intros Hn. unfold response_headers.
  destruct (up_redirected upstream); [|reflexivity].
  now apply get_set_other.
Qed.

Lemma get_response_cors (n : string) :
  In (Str.lower n) CORS_HEADER_NAMES ->
  Headers.get n (response_headers upstream)
  = Headers.get n (Headers.of_record corsHeaders).
Proof.
  intros Hc.
  assert (He : ~ In (Str.lower n) EXPOSE_HEADERS)
    by (intros He; exact (expose_not_cors _ He Hc)).
  rewrite get_response_not_redirect_name
    by (intros E; apply He; rewrite E; cbn; tauto).
  now rewrite get_copy_exposed, (copied_false _ EXPOSE_HEADERS n He).
Qed.


End InboundValues.

(** X5.  After a successful upstream call whose status a response can
    be built with (200 to 599), each of the five CORS headers of the
    response the client is answered has the value [corsHeaders] gives
    it; nothing the upstream response carries can change them. *)
Theorem X5_cors_headers_fixed :
  forall (describe : nat -> string) (request : Request) (url : string)
         (init : RequestInit) (k : FetchResult -> Prog Outcome)
         (upstream : Upstream),
    serve describe request = Fetch url init k ->
    status_in_range (up_status upstream) ->
    exists r,
      k (Resolved upstream) = Ret (Returned r)
      /\ status r = up_status upstream
      /\ Headers.get "access-control-allow-origin" (headers r) = Some "*"
      /\ Headers.get "access-control-allow-methods" (headers r)
         = Some "POST, GET, OPTIONS"
      /\ Headers.get "access-control-allow-headers" (headers r)
         = Some (Str.join ", " ALLOW_HEADERS)
      /\ Headers.get "access-control-expose-headers" (headers r)
         = Some (Str.join ", " EXPOSE_HEADERS)
      /\ Headers.get "access-control-max-age" (headers r) = Some "86400".
Proof.
  intros describe request url init k upstream H Hs.
  destruct (serve_fetch_inv describe request url init k H) as (_ & _ & ->).
  rewrite (client_answer_in_range describe url upstream Hs).
  eexists. split; [reflexivity|]. split; [reflexivity|].
  cbn [headers relayed_response].
  repeat split; rewrite get_response_cors; try reflexivity; cbn; tauto.
Qed.

Lemma X5_witness :
  status_in_range (up_status Samples.with_set_cookie)
  /\ exists r,
      client_answer Samples.describe "https://example.com/foo?x=1"
                    (Resolved Samples.with_set_cookie)
      = Ret (Returned r)
      /\ status r = up_status Samples.with_set_cookie
      /\ Headers.get "access-control-allow-origin" (headers r) = Some "*"
      /\ Headers.get "access-control-allow-methods" (headers r)
         = Some "POST, GET, OPTIONS"
      /\ Headers.get "access-control-allow-headers" (headers r)
         = Some (Str.join ", " ALLOW_HEADERS)
      /\ Headers.get "access-control-expose-headers" (headers r)
         = Some (Str.join ", " EXPOSE_HEADERS)
      /\ Headers.get "access-control-max-age" (headers r) = Some "86400".
Proof.
  assert (Hs : status_in_range (up_status Samples.with_set_cookie))
    by (unfold status_in_range; cbn; lia).
  split; [exact Hs|].
  apply (X5_cors_headers_fixed
           Samples.describe Samples.with_cookie "https://example.com/foo?x=1"
           (fetch_init Samples.with_cookie)
           (client_answer Samples.describe "https://example.com/foo?x=1")
           Samples.with_set_cookie).
  - reflexivity.
  - exact Hs.
Defined.



(** X7.  The error answers of the handler (the two 400 answers and the
    500 answer after a failed upstream call) carry exactly one header,
    the JSON content-type, and so none of the CORS headers. *)
Theorem X7_error_answers_have_no_cors :
  forall (request : Request),
    req_method request <> "OPTIONS" ->
    (forall r,
        handleProxyRequest request = Ret (Returned r) ->
        status r = 400
        /\ headers r = [("content-type", "application/json; charset=utf-8")])
    /\ (forall url init k err,
           handleProxyRequest request = Fetch url init k ->
           exists r,
             k (Rejected err) = Ret (Returned r)
             /\ status r = 500
             /\ headers r
                = [("content-type", "application/json; charset=utf-8")]).
Proof.
  intros request Hm. split.
  - intros r Hr.
    destruct (Str.all Str.is_slash (path_of request)) eqn:Hall.
    + destruct (string_dec (path_of request) "") as [Hp|Hp].
      * rewrite (handle_empty request Hm Hp) in Hr.
        injection Hr as <-. split; reflexivity.
      * rewrite (handle_slashes request Hm Hp Hall) in Hr.
        injection Hr as <-. split; reflexivity.
    + rewrite (handle_forward request Hm Hall) in Hr. discriminate.
  - intros url init k err H.
    destruct (handle_fetch_inv request url init k H) as (_ & _ & _ & _ & ->).
    eexists. repeat split.
Qed.

Lemma X7_witness :
  (forall r,
      handleProxyRequest (Samples.get "/" "" []) = Ret (Returned r) ->
      status r = 400
      /\ headers r = [("content-type", "application/json; charset=utf-8")])
  /\ (forall url init k err,
         handleProxyRequest (Samples.get "/" "" []) = Fetch url init k ->
         exists r,
           k (Rejected err) = Ret (Returned r)
           /\ status r = 500
           /\ headers r
              = [("content-type", "application/json; charset=utf-8")]).
Proof.
  apply (X7_error_answers_have_no_cors (Samples.get "/" "" [])).
  discriminate.
Defined.

(** X8.  Running the handler against any upstream makes no call for an
    OPTIONS request and for a path without a character other than a
    slash (the empty path included), and exactly one call otherwise. *)
Theorem X8_number_of_upstream_calls :
  forall (up : string -> RequestInit -> FetchResult) (request : Request),
    length (snd (run up (handleProxyRequest request)))
    = if String.eqb (req_method request) "OPTIONS"
         || Str.all Str.is_slash (path_of request)
      then 0 else 1.
Proof.
  intros up request.
  destruct (String.eqb (req_method request) "OPTIONS") eqn:Hm.
  - apply String.eqb_eq in Hm. now rewrite (handle_options request Hm).
  - apply String.eqb_neq in Hm. cbn [orb].
    destruct (Str.all Str.is_slash (path_of request)) eqn:Hall.
    + destruct (string_dec (path_of request) "") as [Hp|Hp].
      * now rewrite (handle_empty request Hm Hp).
      * now rewrite (handle_slashes request Hm Hp Hall).
    + rewrite (handle_forward request Hm Hall). cbn [run].
      set (url := target (path_of request) (search (req_url request))).
      pose proof (run_relay up url (up url (fetch_init request))) as Hr.
      destruct (run up (relay url (up url (fetch_init request))))
        as [a calls].
      cbn in *. now subst calls.
Qed.

(** X9.  A request that is not OPTIONS and whose path holds a character
    other than a slash is relayed end to end: one upstream call with the
    method of the request and redirects followed, without a body for GET
    and HEAD and with the body of the request for every other method;
    when the upstream answers with a status a response can be built
    with (200 to 599), its status, reason phrase and body are those of
    the response the client is answered. *)
Theorem X9_relay_end_to_end :
  forall (describe : nat -> string)
         (up : string -> RequestInit -> FetchResult) (request : Request),
    req_method request <> "OPTIONS" ->
    Str.all Str.is_slash (path_of request) = false ->
    exists r url init,
      run up (serve describe request) = (Returned r, [(url, init)])
      /\ init_method init = req_method request
      /\ init_redirect init = "follow"
      /\ (req_method request = "GET" \/ req_method request = "HEAD" ->
          init_body init = None)
      /\ (req_method request <> "GET" -> req_method request <> "HEAD" ->
          init_body init = Some (req_body request))
      /\ (forall u,
             up url init = Resolved u ->
             status_in_range (up_status u) ->
             status r = up_status u
             /\ statusText r = up_statusText u
             /\ body r = up_body u).
Proof.
  intros describe up request Hm Hall.
  set (url := target (path_of request) (search (req_url request))).
  destruct (client_answer_returns describe url
              (up url (fetch_init request))) as [r Hr].
  exists r, url, (fetch_init request).
  split; [|split; [|split; [|split; [|split]]]].
  - rewrite (serve_forward describe request Hm Hall). fold url.
    cbn [run]. now rewrite Hr.
  - reflexivity.
  - reflexivity.
  - intros [Hg|Hh]; cbn [init_body fetch_init].
    + now rewrite Hg.
    + now rewrite Hh.
  - intros Hg Hh. cbn [init_body fetch_init].
    apply String.eqb_neq in Hg, Hh. now rewrite Hg, Hh.
  - intros u Hu Hs. rewrite Hu in Hr.
    rewrite (client_answer_in_range describe url u Hs) in Hr.
    injection Hr as <-. repeat split.
Qed.

Lemma X9_witness :
  exists r url init,
    run (fun _ _ => Resolved Samples.with_set_cookie)
        (serve Samples.describe Samples.with_cookie)
    = (Returned r, [(url, init)])
    /\ init_method init = req_method Samples.with_cookie
    /\ init_redirect init = "follow"
    /\ (req_method Samples.with_cookie = "GET"
        \/ req_method Samples.with_cookie = "HEAD" ->
        init_body init = None)
    /\ (req_method Samples.with_cookie <> "GET" ->
        req_method Samples.with_cookie <> "HEAD" ->
        init_body init = Some (req_body Samples.with_cookie))
    /\ (forall u,
           (fun _ _ => Resolved Samples.with_set_cookie) url init
           = Resolved u ->
           status_in_range (up_status u) ->
           status r = up_status u
           /\ statusText r = up_statusText u
           /\ body r = up_body u).
Proof.
  apply (X9_relay_end_to_end
           Samples.describe
           (fun _ _ => Resolved Samples.with_set_cookie)
           Samples.with_cookie).
  - discriminate.
  - reflexivity.
Defined.

(** X13.  When the upstream answers with a status no response can be
    built with (outside 200 to 599), the client is answered by the
    [catch] of the callback: status 500, the JSON content-type as the
    only header, and a body whose members are [error] with the value
    "Proxy error" and [message] with the message of the RangeError;
    there is no [url] member, no CORS header and nothing of the upstream
    response. *)
Theorem X13_status_out_of_range :
  forall (describe : nat -> string) (request : Request) (url : string)
         (init : RequestInit) (k : FetchResult -> Prog Outcome)
         (upstream : Upstream),
    serve describe request = Fetch url init k ->
    ~ status_in_range (up_status upstream) ->
    exists r text,
      k (Resolved upstream) = Ret (Returned r)
      /\ status r = 500
      /\ headers r = [("content-type", "application/json; charset=utf-8")]
      /\ body r = BodyText text
      /\ JSONRead.parse_object text
         = Some [("error", "Proxy error");
                 ("message", describe (up_status upstream))].
Proof.
  intros describe request url init k upstream H Hs.
  destruct (serve_fetch_inv describe request url init k H) as (_ & _ & ->).
  rewrite (client_answer_out_of_range describe url upstream Hs).
  eexists. eexists. split; [reflexivity|].
  split; [reflexivity|]. split; [reflexivity|]. split; [reflexivity|].
  apply parse_stringify.
Qed.

Lemma X13_witness :
  ~ status_in_range (up_status Samples.out_of_range)
  /\ exists r text,
      client_answer Samples.describe "https://example.com/foo?x=1"
                    (Resolved Samples.out_of_range)
      = Ret (Returned r)
      /\ status r = 500
      /\ headers r = [("content-type", "application/json; charset=utf-8")]
      /\ body r = BodyText text
      /\ JSONRead.parse_object text
         = Some [("error", "Proxy error");
                 ("message",
                  Samples.describe (up_status Samples.out_of_range))].
Proof.
  assert (Hs : ~ status_in_range (up_status Samples.out_of_range))
    by (unfold status_in_range; cbn; lia).
  split; [exact Hs|].
  apply (X13_status_out_of_range
           Samples.describe Samples.with_cookie "https://example.com/foo?x=1"
           (fetch_init Samples.with_cookie)
           (client_answer Samples.describe "https://example.com/foo?x=1")
           Samples.out_of_range).
  - reflexivity.
  - exact Hs.
Defined.

(** X14.  The callback given to [Bun.serve] answers every request with a
    response, whatever the upstream does: what the handler throws is
    caught and turned into an answer. *)
Theorem X14_callback_always_answers :
  forall (describe : nat -> string)
         (up : string -> RequestInit -> FetchResult) (request : Request),
    exists r, fst (run up (serve describe request)) = Returned r.
Proof.
  intros describe up request.
  destruct (String.eqb (req_method request) "OPTIONS") eqn:Hm.
  - apply String.eqb_eq in Hm. unfold serve.
    rewrite (handle_options request Hm). eexists. reflexivity.
  - apply String.eqb_neq in Hm.
    destruct (Str.all Str.is_slash (path_of request)) eqn:Hall.
    + unfold serve.
      destruct (string_dec (path_of request) "") as [Hp|Hp].
      * rewrite (handle_empty request Hm Hp). eexists. reflexivity.
      * rewrite (handle_slashes request Hm Hp Hall). eexists. reflexivity.
    + rewrite (serve_forward describe request Hm Hall). cbn [run].
      set (url := target (path_of request) (search (req_url request))).
      destruct (client_answer_returns describe url
                  (up url (fetch_init request))) as [r Hr].
      rewrite Hr. exists r. reflexivity.
Qed.

(* ===================================================================== *)
(** ** The upstream URL, read off the path *)

Lemma run_split (p : ascii -> bool) (s : string) :
  s = Str.take_run p s ++ Str.drop_run p s.
Proof.
  induction s as [|c s IH]; cbn; [reflexivity|].
  destruct (p c); cbn; [now rewrite <- IH | reflexivity].
Qed.

Lemma all_drop_run (p q : ascii -> bool) (s : string) :
  Str.all p s = true -> Str.all p (Str.drop_run q s) = true.
Proof.
  induction s as [|c s IH]; cbn; [trivial|].
  intros H. destruct (q c); [|exact H].
  apply andb_prop in H. now apply IH.
Qed.

Lemma target_of_stripped (path query : string) :
  Str.all Str.is_slash path = false ->
  no_line_terminator path = true ->
  target path query
  = "https://" ++ Str.drop_run Str.is_slash path
       ++ (if Str.all Str.not_slash (Str.drop_run Str.is_slash path)
           then "/" else "")
       ++ query.
Proof.
  intros Hall Hlt. unfold target, first_run, after_domain.
  assert (Hs : Str.all Str.dot (Str.drop_run Str.is_slash path) = true)
    by now apply all_drop_run.
  set (s := Str.drop_run Str.is_slash path) in *.
  apply (f_equal (append "https://")).
  destruct (Str.all Str.not_slash s) eqn:Hns.
  - now rewrite (take_run_all _ s Hns), (drop_run_all _ s Hns).
  - pose proof (run_split Str.not_slash s) as Hsplit.
    assert (Hr : Str.all Str.dot (Str.drop_run Str.not_slash s) = true)
      by now apply all_drop_run.
    destruct (Str.drop_run Str.not_slash s) as [|c r] eqn:Hd.
    + apply drop_run_empty_all in Hd. congruence.
    + pose proof (drop_run_head _ _ _ _ Hd) as Hc.
      apply not_slash_is_slash in Hc.
      cbn [Str.strip_leading_slash]. rewrite Hc.
      unfold Str.is_slash in Hc. apply Ascii.eqb_eq in Hc. subst c.
      cbn in Hr. rewrite (take_run_all _ r Hr).
      rewrite Hsplit at 2. rewrite string_app_assoc. reflexivity.
Qed.

(** X10.  For a request that is not OPTIONS, whose path holds a
    character other than a slash and no line terminator, the upstream
    URL is "https://" followed by the path without its leading slashes
    and by the query string; a slash is put between the two when what is
    left of the path holds none (a bare domain). *)
Theorem X10_upstream_url_is_stripped_path :
  forall (request : Request),
    req_method request <> "OPTIONS" ->
    Str.all Str.is_slash (path_of request) = false ->
    no_line_terminator (path_of request) = true ->
    let stripped := Str.drop_run Str.is_slash (path_of request) in
    let url :=
      "https://" ++ stripped
         ++ (if Str.all Str.not_slash stripped then "/" else "")
         ++ search (req_url request) in
    handleProxyRequest request = Fetch url (fetch_init request) (relay url).
Proof.
  intros request Hm Hall Hlt stripped url. subst url stripped.
  rewrite <- (target_of_stripped _ _ Hall Hlt).
  now apply handle_forward.
Qed.

Lemma X10_witness :
  handleProxyRequest (Samples.get "///example.com/a//b/" "?x=1" [])
  = Fetch "https://example.com/a//b/?x=1"
          (fetch_init (Samples.get "///example.com/a//b/" "?x=1" []))
          (relay "https://example.com/a//b/?x=1").
Proof.
  apply (X10_upstream_url_is_stripped_path
           (Samples.get "///example.com/a//b/" "?x=1" [])).
  - discriminate.
  - reflexivity.
  - reflexivity.
Defined.

(* ===================================================================== *)
(** ** The helper [json] *)










(* ===================================================================== *)
(** ** One entry per name *)

Section Names.
Import Headers.

Lemma names_filter (f : string * string -> bool) (x : string) (h : t) :
  In x (map fst (filter f h)) -> In x (map fst h).
Proof.
  induction h as [|e h IH]; cbn; [trivial|].
  destruct (f e); cbn; tauto.
Qed.

Lemma NoDup_names_filter (f : string * string -> bool) (h : t) :
  NoDup (map fst h) -> NoDup (map fst (filter f h)).
Proof.
  induction h as [|e h IH]; cbn; [trivial|].
  intros H. inversion H as [|? ? Hnotin Hnd]; subst.
  destruct (f e); cbn; [|now apply IH].
  constructor; [|now apply IH].
  intros Hin. apply Hnotin. now apply names_filter in Hin.
Qed.

Lemma names_removed (n : string) (h : t) :
  ~ In n (map fst (filter (fun e => negb (named n e)) h)).
Proof.
  induction h as [|e h IH]; cbn; [tauto|].
  destruct (named n e) eqn:E; cbn; [exact IH|].
  intros [H|H]; [|now apply IH].
  unfold named in E. apply String.eqb_neq in E. congruence.
Qed.

Lemma names_set_lower (n v x : string) (h : t) :
  In x (map fst (set_lower n v h)) -> x = n \/ In x (map fst h).
Proof.
  induction h as [|e h IH]; cbn [set_lower].
  - cbn. intros [H|[]]; auto.
  - destruct (named n e) eqn:E; cbn.
    + intros [H|H]; [auto|]. right. right. now apply names_filter in H.
    + intros [H|H]; [tauto|]. destruct (IH H); tauto.
Qed.

(** [set] keeps a list without repeated names such a list. *)
Lemma NoDup_set_lower (n v : string) (h : t) :
  NoDup (map fst h) -> NoDup (map fst (set_lower n v h)).
Proof.
  induction h as [|e h IH]; cbn [set_lower].
  - intros _. cbn. constructor; [tauto | constructor].
  - intros H. cbn in H. inversion H as [|? ? Hnotin Hnd]; subst.
    destruct (named n e) eqn:E; cbn.
    + constructor; [apply names_removed | now apply NoDup_names_filter].
    + constructor; [|now apply IH].
      intros Hin. destruct (names_set_lower n v _ h Hin) as [Hx|Hx];
        [|contradiction].
      unfold named in E. apply String.eqb_neq in E. congruence.
Qed.

Lemma NoDup_copy_loop (skip : string -> bool) (from : t)
      (l : list string) (into : t) :
  NoDup (map fst into) -> NoDup (map fst (copy_loop skip from l into)).
Proof.
  unfold copy_loop. revert into.
  induction l as [|m l IH]; intros into H; cbn [fold_left]; [exact H|].
  apply IH. destruct (skip m); [exact H|].
  unfold copy_header. destruct (get m from); [|exact H].
  now apply NoDup_set_lower.
Qed.

Lemma NoDup_forward_headers (request : Request) :
  NoDup (map fst (forward_headers request)).
Proof.
  assert (Hc : NoDup (map fst (context_headers request))).
  { unfold context_headers, set.
    repeat apply NoDup_set_lower.
    rewrite copy_allowed_loop. apply NoDup_copy_loop. constructor. }
  unfold forward_headers.
  destruct (falsy _ || negb _); [|exact Hc].
  now apply NoDup_set_lower.
Qed.

Lemma NoDup_response_headers (upstream : Upstream) :
  NoDup (map fst (response_headers upstream)).
Proof.
  assert (Hc : NoDup (map fst (copy_exposed (up_headers upstream)
                                            (of_record corsHeaders)))).
  { rewrite copy_exposed_loop. apply NoDup_copy_loop.
    rewrite cors_names. unfold CORS_HEADER_NAMES.
    repeat constructor; cbn; intuition discriminate. }
  unfold response_headers.
  destruct (up_redirected upstream); [|exact Hc].
  now apply NoDup_set_lower.
Qed.

End Names.

(** X12.  The headers handed to the upstream call, and the headers of
    the response the client is answered after a successful call, hold
    every name at most once, however often a header is repeated on the
    inbound request or on the upstream response and whatever the status
    of the upstream response. *)
Theorem X12_one_entry_per_name :
  forall (describe : nat -> string) (request : Request) (url : string)
         (init : RequestInit) (k : FetchResult -> Prog Outcome)
         (upstream : Upstream),
    serve describe request = Fetch url init k ->
    NoDup (map fst (init_headers init))
    /\ exists r,
        k (Resolved upstream) = Ret (Returned r)
        /\ NoDup (map fst (headers r)).
Proof.
  intros describe request url init k upstream H.
  destruct (serve_fetch_inv describe request url init k H) as (_ & -> & ->).
  split; [apply NoDup_forward_headers|].
  destruct (status_in_range_dec (up_status upstream)) as [Hs|Hs].
  - rewrite (client_answer_in_range describe url upstream Hs).
    eexists. split; [reflexivity|]. apply NoDup_response_headers.
  - rewrite (client_answer_out_of_range describe url upstream Hs).
    eexists. split; [reflexivity|]. cbn.
    constructor; [tauto | constructor].
Qed.

Lemma X12_witness :
  NoDup (map fst
           (init_headers
              (fetch_init
                 (Samples.get "/example.com/r.git" ""
                    [("Accept", "text/html"); ("accept", "*/*")]))))
  /\ exists r,
      client_answer Samples.describe "https://example.com/r.git"
        (Resolved (Samples.ok [("Vary", "a"); ("vary", "b")] false
                              "https://example.com/r.git"))
      = Ret (Returned r)
      /\ NoDup (map fst (headers r)).
Proof.
  apply (X12_one_entry_per_name
           Samples.describe
           (Samples.get "/example.com/r.git" ""
              [("Accept", "text/html"); ("accept", "*/*")])
           "https://example.com/r.git"
           (fetch_init
              (Samples.get "/example.com/r.git" ""
                 [("Accept", "text/html"); ("accept", "*/*")]))
           (client_answer Samples.describe "https://example.com/r.git")
           (Samples.ok [("Vary", "a"); ("vary", "b")] false
                       "https://example.com/r.git")).
  reflexivity.
Defined.
